(** * apiki: the direct API client and its command line, verified

    A shallow embedding of [src/apiki/client.py] and of the client mode of
    [src/apiki/cli.py].

    Modelling conventions.
    - Python values coming out of a JSON decoder are the type [pyval]; the
      code is dynamically typed, so every operation on such a value is
      modelled with the exception Python raises when the value has the wrong
      shape.  JSON numbers are integers here (floating point is outside the
      model).
    - A Python [dict] is an association list in insertion order whose keys
      are pairwise distinct; [dict_set] is item assignment.
    - A [str] is a [string] of bytes (UTF-8).  [upper] and [lower] are
      [str.upper()] and [str.lower()] on strings of ASCII characters; on
      other characters Python follows the Unicode tables, which are not
      modelled, so a statement about a string that the caller chooses and
      that is upper-cased is made for ASCII strings.  Likewise [py_repr] is
      [repr] on values whose strings are ASCII.
    - The network, the standard output and [sys.exit] are effects: a
      computation threads the trace of what happened so far and ends in a
      value, an exception or an exit code. *)

From Stdlib Require Import ZArith List String Ascii Bool Lia DecimalString.
Import ListNotations.
Open Scope string_scope.
Open Scope Z_scope.
Set Warnings "-register-all".

(** ** Strings *)

Definition dquote : ascii := "034"%char.
Definition newline : ascii := "010"%char.

Definition is_upper_ascii (c : ascii) : bool :=
  (65 <=? nat_of_ascii c)%nat && (nat_of_ascii c <=? 90)%nat.

Definition is_lower_ascii (c : ascii) : bool :=
  (97 <=? nat_of_ascii c)%nat && (nat_of_ascii c <=? 122)%nat.

Definition upper_ascii (c : ascii) : ascii :=
  if is_lower_ascii c then ascii_of_nat (nat_of_ascii c - 32) else c.

Definition lower_ascii (c : ascii) : ascii :=
  if is_upper_ascii c then ascii_of_nat (nat_of_ascii c + 32) else c.

(** [str.upper()] and [str.lower()], on ASCII strings.  (In
    [_parse_endpoints] they are applied to any key: no character outside
    ASCII has a lower-cased form made of the letters of [get], [post],
    [put], [delete] or [patch], so a key with such a character is not a
    supported method here as in Python, and only ASCII keys are
    upper-cased.) *)
Fixpoint upper (s : string) : string :=
  match s with
  | EmptyString => EmptyString
  | String c s' => String (upper_ascii c) (upper s')
  end.

Fixpoint lower (s : string) : string :=
  match s with
  | EmptyString => EmptyString
  | String c s' => String (lower_ascii c) (lower s')
  end.

(** [s.startswith(p)]. *)
Fixpoint startswith (s p : string) {struct p} : bool :=
  match p, s with
  | EmptyString, _ => true
  | String _ _, EmptyString => false
  | String a p', String b s' => Ascii.eqb a b && startswith s' p'
  end.

Arguments startswith s p : simpl nomatch.

(** [s.endswith("/")]. *)
Fixpoint endswith_slash (s : string) : bool :=
  match s with
  | EmptyString => false
  | String c EmptyString => Ascii.eqb c "/"
  | String _ s' => endswith_slash s'
  end.

(** [s[:-1]]. *)
Fixpoint drop_last (s : string) : string :=
  match s with
  | EmptyString => EmptyString
  | String _ EmptyString => EmptyString
  | String c s' => String c (drop_last s')
  end.

(** [p in s] for two strings. *)
Fixpoint is_substring (p s : string) : bool :=
  startswith s p ||
  match s with
  | EmptyString => false
  | String _ s' => is_substring p s'
  end.

Fixpoint join (sep : string) (l : list string) : string :=
  match l with
  | [] => ""
  | [x] => x
  | x :: l' => x ++ sep ++ join sep l'
  end.

(** ** Python values *)

Inductive pyval : Type :=
| PNone
| PBool (b : bool)
| PInt (z : Z)
| PStr (s : string)
| PList (l : list pyval)
| PDict (d : list (string * pyval)).

Definition dict (V : Type) : Type := list (string * V).

Definition keys {V} (d : dict V) : list string := map fst d.

Fixpoint dict_get {V} (k : string) (d : dict V) : option V :=
  match d with
  | [] => None
  | (k', v) :: d' => if String.eqb k k' then Some v else dict_get k d'
  end.

Definition dict_mem {V} (k : string) (d : dict V) : bool :=
  match dict_get k d with Some _ => true | None => false end.

(** [d[k] = v]: the value is replaced in place when the key is there, the
    item is appended otherwise. *)
Fixpoint dict_set {V} (k : string) (v : V) (d : dict V) : dict V :=
  match d with
  | [] => [(k, v)]
  | (k', v') :: d' =>
      if String.eqb k k' then (k, v) :: d' else (k', v') :: dict_set k v d'
  end.

(** [d.update(other)]. *)
Definition dict_update {V} (d other : dict V) : dict V :=
  fold_left (fun acc kv => dict_set (fst kv) (snd kv) acc) other d.

(** [d.get(k, default)]. *)
Definition dict_get_default {V} (k : string) (default : V) (d : dict V) : V :=
  match dict_get k d with Some v => v | None => default end.

Fixpoint distinct (l : list string) : bool :=
  match l with
  | [] => true
  | x :: l' => negb (existsb (String.eqb x) l') && distinct l'
  end.

(** Truth value of a Python value, as [if v:] tests it. *)
Definition py_truthy (v : pyval) : bool :=
  match v with
  | PNone => false
  | PBool b => b
  | PInt z => negb (z =? 0)
  | PStr s => negb (String.eqb s "")
  | PList l => match l with [] => false | _ => true end
  | PDict d => match d with [] => false | _ => true end
  end.

(** *** [str] and [repr]

    As Python prints them for values whose strings are ASCII; a character
    outside ASCII is copied, which is what Python does when the character
    is printable. *)

Definition hex_digit (n : nat) : ascii :=
  ascii_of_nat (if (n <? 10)%nat then 48 + n else 87 + n).

Definition repr_char (quote : ascii) (c : ascii) : string :=
  let n := nat_of_ascii c in
  if Ascii.eqb c "\" then "\\"
  else if Ascii.eqb c quote then String "\" (String c "")
  else if (n =? 10)%nat then "\n"
  else if (n =? 13)%nat then "\r"
  else if (n =? 9)%nat then "\t"
  else if (n <? 32)%nat || (n =? 127)%nat
       then "\x" ++ String (hex_digit (n / 16)) (String (hex_digit (n mod 16)) "")
  else String c "".

Fixpoint repr_chars (quote : ascii) (s : string) : string :=
  match s with
  | EmptyString => EmptyString
  | String c s' => repr_char quote c ++ repr_chars quote s'
  end.

Definition has_char (c : ascii) (s : string) : bool :=
  is_substring (String c "") s.

(** [repr(s)] of a string: single quotes, unless the string holds a single
    quote and no double quote. *)
Definition repr_str (s : string) : string :=
  let quote := if has_char "'" s && negb (has_char dquote s) then dquote else "'"%char in
  String quote (repr_chars quote s ++ String quote "").

Definition str_int (z : Z) : string := NilZero.string_of_int (Z.to_int z).

Definition str_bool (b : bool) : string := if b then "True" else "False".

Fixpoint py_repr (v : pyval) : string :=
  match v with
  | PNone => "None"
  | PBool b => str_bool b
  | PInt z => str_int z
  | PStr s => repr_str s
  | PList l => "[" ++ join ", " (map py_repr l) ++ "]"
  | PDict d =>
      "{" ++ join ", " (map (fun kv => repr_str (fst kv) ++ ": " ++ py_repr (snd kv)) d) ++ "}"
  end.

(** [str(v)]: a string is itself, anything else is its [repr]. *)
Definition py_str (v : pyval) : string :=
  match v with
  | PStr s => s
  | _ => py_repr v
  end.

(** ** Exceptions and results *)

Inductive exn_class : Type :=
| ValueError | TypeError | KeyError | IndexError | AttributeError
| JSONDecodeError | HTTPError | ConnectionError | Timeout | SSLError
| RecursionError.

(** An exception: its class and what [str(e)] gives. *)
Record exn : Type := Exn { exn_kind : exn_class; exn_str : string }.

Inductive result (A : Type) : Type :=
| Ok (a : A)
| Raise (e : exn).
Arguments Ok {A} a.
Arguments Raise {A} e.

Definition rbind {A B} (r : result A) (f : A -> result B) : result B :=
  match r with
  | Ok a => f a
  | Raise e => Raise e
  end.

Declare Scope result_scope.
Delimit Scope result_scope with result.
Notation "x <- r ;; k" := (rbind r (fun x => k))
  (at level 61, r at next level, right associativity) : result_scope.

Definition exn_class_eqb (a b : exn_class) : bool :=
  match a, b with
  | ValueError, ValueError | TypeError, TypeError | KeyError, KeyError
  | IndexError, IndexError | AttributeError, AttributeError
  | JSONDecodeError, JSONDecodeError | HTTPError, HTTPError
  | ConnectionError, ConnectionError | Timeout, Timeout | SSLError, SSLError
  | RecursionError, RecursionError => true
  | _, _ => false
  end.

(** *** Dynamically typed operations on decoded values *)

(** [k in v] for a string [k]. *)
Definition py_contains (k : string) (v : pyval) : result bool :=
  match v with
  | PDict d => Ok (dict_mem k d)
  | PList l =>
      Ok (existsb (fun x => match x with PStr s => String.eqb s k | _ => false end) l)
  | PStr s => Ok (is_substring k s)
  | _ => Raise (Exn TypeError "argument is not iterable")
  end.

(** [v[k]] for a string [k]. *)
Definition py_getitem (k : string) (v : pyval) : result pyval :=
  match v with
  | PDict d =>
      match dict_get k d with
      | Some x => Ok x
      | None => Raise (Exn KeyError (repr_str k))
      end
  | PList _ => Raise (Exn TypeError "list indices must be integers or slices, not str")
  | PStr _ => Raise (Exn TypeError "string indices must be integers, not 'str'")
  | _ => Raise (Exn TypeError "object is not subscriptable")
  end.

(** [v[0]]. *)
Definition py_first (v : pyval) : result pyval :=
  match v with
  | PList (x :: _) => Ok x
  | PList [] => Raise (Exn IndexError "list index out of range")
  | PStr (String c _) => Ok (PStr (String c ""))
  | PStr EmptyString => Raise (Exn IndexError "string index out of range")
  | PDict _ => Raise (Exn KeyError "0")
  | _ => Raise (Exn TypeError "object is not subscriptable")
  end.

(** [v.items()]. *)
Definition py_items (v : pyval) : result (list (string * pyval)) :=
  match v with
  | PDict d => Ok d
  | _ => Raise (Exn AttributeError "object has no attribute 'items'")
  end.

(** [v.get(k, default)]. *)
Definition py_get (k : string) (default : pyval) (v : pyval) : result pyval :=
  match v with
  | PDict d => Ok (dict_get_default k default d)
  | _ => Raise (Exn AttributeError "object has no attribute 'get'")
  end.

(** [try: r except <classes> as e: h e] on pure code. *)
Definition try_except {A} (r : result A) (catches : exn_class -> bool)
    (h : exn -> result A) : result A :=
  match r with
  | Ok a => Ok a
  | Raise e => if catches (exn_kind e) then h e else Raise e
  end.

(** ** The data of [client.py] *)

Module APIClientConfig.
Record t : Type := mk {
    openapi_url : string;
    api_base_url : string;
    headers : dict string;
    timeout : Z;
    verify_ssl : bool;
    verbose : bool
  }.
End APIClientConfig.

Module APIResponse.
Record t : Type := mk {
    status_code : Z;
    success : bool;
    data : pyval;
    error : option string;
    headers : dict string;
    request_info : dict pyval
  }.
End APIResponse.

(** What decoding does on a text: it returns a value, or it raises, with
    a message. *)
Inductive decoded : Type :=
| Decoded (v : pyval)
| Undecodable (msg : string).

(** A [requests.Response], by what the client reads from it. *)
Module Response.
Record t : Type := mk {
    status_code : Z;
    reason : string;
    url : string;
    content : string;
    text : string;
    body : decoded;
    json_raises : exn_class;
    headers : dict string
  }.

  (** [response.json()]: the decoded body, or the exception it raises on a
      body that does not decode.  The class of that exception is
      [json_raises]: a [JSONDecodeError] as a rule, a [RecursionError] on a
      body nested too deep, a [ValueError] on a number with too many
      digits. *)
Definition json (r : t) : result pyval :=
    match body r with
    | Decoded v => Ok v
    | Undecodable msg => Raise (Exn (json_raises r) msg)
    end.

  (** [requests]' own check: an [HTTPError] for a status in 400..599. *)
Definition raise_for_status (r : t) : result unit :=
    let http_error_msg :=
      if (400 <=? status_code r) && (status_code r <? 500)
      then str_int (status_code r) ++ " Client Error: " ++ reason r ++ " for url: " ++ url r
      else if (500 <=? status_code r) && (status_code r <? 600)
      then str_int (status_code r) ++ " Server Error: " ++ reason r ++ " for url: " ++ url r
      else "" in
    if negb (String.eqb http_error_msg "")
    then Raise (Exn HTTPError http_error_msg)
    else Ok tt.
End Response.

(** The keyword arguments handed to [requests]; [None] is a key that is not
    passed. *)
Record kwargs : Type := {
  kw_timeout : Z;
  kw_verify : bool;
  kw_headers : option (dict string);
  kw_params : option pyval;
  kw_json : option pyval
}.

Record APIClient : Type := {
  config : APIClientConfig.t;
  spec_dict : pyval;
  endpoints : dict (dict pyval)
}.

(** ** The pure methods of [APIClient] *)

Definition supported_verbs : list string := ["get"; "post"; "put"; "delete"; "patch"].

Definition is_supported (method : string) : bool :=
  existsb (String.eqb (lower method)) supported_verbs.

(** The inner loop of [_parse_endpoints], on the mapping being filled for
    one path. *)
Fixpoint parse_methods (items : list (string * pyval)) (inner : dict pyval)
    : result (dict pyval) :=
  match items with
  | [] => Ok inner
  | (method, details) :: rest =>
      if negb (is_supported method) then parse_methods rest inner
      else
        (summary <- py_get "summary" (PStr "") details ;;
         description <- py_get "description" (PStr "") details ;;
         parameters <- py_get "parameters" (PList []) details ;;
         requestBody <- py_get "requestBody" (PDict []) details ;;
         responses <- py_get "responses" (PDict []) details ;;
         parse_methods rest
           (dict_set (upper method)
              (PDict [("summary", summary); ("description", description);
                      ("parameters", parameters); ("requestBody", requestBody);
                      ("responses", responses)])
              inner))%result
  end.

(** The outer loop of [_parse_endpoints]. *)
Fixpoint parse_paths (items : list (string * pyval)) (endpoints : dict (dict pyval))
    : result (dict (dict pyval)) :=
  match items with
  | [] => Ok endpoints
  | (path, methods) :: rest =>
      let endpoints := dict_set path [] endpoints in
      (method_items <- py_items methods ;;
       inner <- parse_methods method_items [] ;;
       parse_paths rest (dict_set path inner endpoints))%result
  end.

Definition _parse_endpoints (spec_dict : pyval) : result (dict (dict pyval)) :=
  (has_paths <- py_contains "paths" spec_dict ;;
   if negb has_paths then Ok []
   else
     paths <- py_getitem "paths" spec_dict ;;
     items <- py_items paths ;;
     parse_paths items [])%result.

(** The two normalisation steps of [_get_base_url]. *)
Definition normalize_base_url (base_url : string) : string :=
  let base_url := if endswith_slash base_url then drop_last base_url else base_url in
  if negb (startswith base_url "http://" || startswith base_url "https://")
  then "https://" ++ base_url
  else base_url.

Definition _get_base_url (self : APIClient) : result string :=
  let base_url := PStr (APIClientConfig.api_base_url (config self)) in
  (has_servers <- py_contains "servers" (spec_dict self) ;;
   base_url <-
     (if has_servers then
        servers <- py_getitem "servers" (spec_dict self) ;;
        if py_truthy servers then
          first <- py_first servers ;;
          has_url <- py_contains "url" first ;;
          if has_url then py_getitem "url" first else Ok base_url
        else Ok base_url
      else Ok base_url) ;;
   match base_url with
   | PStr s => Ok (normalize_base_url s)
   | _ => Raise (Exn AttributeError "object has no attribute 'endswith'")
   end)%result.

Definition _prepare_request_kwargs (self : APIClient) (params data : pyval) : kwargs :=
  let headers :=
    dict_update [("Content-Type", "application/json")]
                (APIClientConfig.headers (config self)) in
  {| kw_timeout := APIClientConfig.timeout (config self);
     kw_verify := APIClientConfig.verify_ssl (config self);
     kw_headers := Some headers;
     kw_params := if py_truthy params then Some params else None;
     kw_json := if py_truthy data then Some data else None |}.

Definition _process_response (response : Response.t) (request_info : dict pyval)
    : result APIResponse.t :=
  let nonempty := negb (String.eqb (Response.content response) "") in
  (data <-
     try_except
       (if nonempty then Response.json response else Ok PNone)
       (exn_class_eqb JSONDecodeError)
       (fun _ => Ok (if nonempty then PStr (Response.text response) else PNone)) ;;
   let headers := dict_update [] (Response.headers response) in
   Ok {| APIResponse.status_code := Response.status_code response;
         APIResponse.success := Response.status_code response <? 400;
         APIResponse.data := data;
         APIResponse.error :=
           if Response.status_code response <? 400 then None else Some (py_str data);
         APIResponse.headers := headers;
         APIResponse.request_info := request_info |})%result.

Definition get_available_endpoints (self : APIClient) : dict (dict pyval) :=
  endpoints self.

Definition path_not_found (path : string) : string :=
  "Path '" ++ path ++ "' not found in API specification".

Definition method_not_found (method path : string) : string :=
  "Method '" ++ method ++ "' not found for path '" ++ path ++ "' in API specification".

Definition get_endpoint_details (self : APIClient) (path method : string) : result pyval :=
  let method := upper method in
  match dict_get path (endpoints self) with
  | None => Raise (Exn ValueError (path_not_found path))
  | Some inner =>
      match dict_get method inner with
      | None => Raise (Exn ValueError (method_not_found method path))
      | Some details => Ok details
      end
  end.

(** ** Effects: the network, the standard output, [sys.exit] *)

Record Request : Type := {
  req_method : string;
  req_url : string;
  req_kwargs : kwargs
}.

Inductive event : Type :=
| HttpRequest (r : Request)      (* a call of [requests.<verb>] *)
| Print (line : string)          (* [print(line)] *)
| PrintJson (v : pyval).         (* [print(json.dumps(v, indent=2))] *)

Definition trace : Type := list event.

Inductive outcome (A : Type) : Type :=
| Ret (a : A)        (* normal return *)
| Exc (e : exn)      (* an exception on its way up *)
| Exit (code : Z).   (* [sys.exit(code)] *)
Arguments Ret {A} a.
Arguments Exc {A} e.
Arguments Exit {A} code.

Definition M (A : Type) : Type := trace -> outcome A * trace.

Definition ret {A} (a : A) : M A := fun t => (Ret a, t).

Definition bind {A B} (m : M A) (f : A -> M B) : M B :=
  fun t =>
    match m t with
    | (Ret a, t') => f a t'
    | (Exc e, t') => (Exc e, t')
    | (Exit c, t') => (Exit c, t')
    end.

Definition raise {A} (e : exn) : M A := fun t => (Exc e, t).

Definition sys_exit {A} (code : Z) : M A := fun t => (Exit code, t).

Definition emit (e : event) : M unit := fun t => (Ret tt, (t ++ [e])%list).

Definition print (line : string) : M unit := emit (Print line).

Definition lift {A} (r : result A) : M A :=
  match r with
  | Ok a => ret a
  | Raise e => raise e
  end.

(** [try: m except Exception as e: h e]; [SystemExit] is no [Exception]. *)
Definition try_catch {A} (m : M A) (h : exn -> M A) : M A :=
  fun t =>
    match m t with
    | (Exc e, t') => h e t'
    | r => r
    end.

Declare Scope M_scope.
Delimit Scope M_scope with M.
Notation "x <- m ;; k" := (bind m (fun x => k))
  (at level 61, m at next level, right associativity) : M_scope.
Notation "m ;;; k" := (bind m (fun _ => k))
  (at level 61, right associativity) : M_scope.

(** The status the interpreter exits with. *)
Definition exit_status {A} (o : outcome A) : Z :=
  match o with
  | Ret _ => 0
  | Exc _ => 1
  | Exit code => code
  end.


Definition failure_response (e : exn) (request_info : dict pyval) : APIResponse.t :=
  {| APIResponse.status_code := 500;
     APIResponse.success := false;
     APIResponse.data := PNone;
     APIResponse.error := Some (exn_str e);
     APIResponse.headers := [];
     APIResponse.request_info := request_info |}.

Section Client.

  (** What the network answers to a request, given what happened before: a
      response, or the exception [requests] raises. *)
Variable network : trace -> Request -> result Response.t.

  (** [requests.get], [requests.post], ... *)
Definition requests_call (method url : string) (kw : kwargs) : M Response.t :=
    fun t =>
      let r := {| req_method := method; req_url := url; req_kwargs := kw |} in
      match network t r with
      | Ok response => (Ret response, (t ++ [HttpRequest r])%list)
      | Raise e => (Exc e, (t ++ [HttpRequest r])%list)
      end.

Definition _fetch_openapi_spec (config : APIClientConfig.t) : M pyval :=
    try_catch
      (response <- requests_call "GET" (APIClientConfig.openapi_url config)
                     {| kw_timeout := APIClientConfig.timeout config;
                        kw_verify := APIClientConfig.verify_ssl config;
                        kw_headers := None; kw_params := None; kw_json := None |} ;;
       lift (Response.raise_for_status response) ;;;
       spec <- lift (Response.json response) ;;
       ret spec)%M
      (fun e =>
         let error_msg := "Failed to fetch OpenAPI spec: " ++ exn_str e in
         raise (Exn ValueError error_msg)).

  (** [APIClient(config)]. *)
Definition APIClient_init (config : APIClientConfig.t) : M APIClient :=
    (spec_dict <- _fetch_openapi_spec config ;;
     endpoints <- lift (_parse_endpoints spec_dict) ;;
     ret {| config := config; spec_dict := spec_dict; endpoints := endpoints |})%M.

Definition get (self : APIClient) (path : string) (params : pyval) : M APIResponse.t :=
    (base_url <- lift (_get_base_url self) ;;
     let path := if negb (startswith path "/") then "/" ++ path else path in
     let url := base_url ++ path in
     let request_info :=
       [("method", PStr "GET"); ("url", PStr url); ("params", params)] in
     try_catch
       (let kwargs := _prepare_request_kwargs self params PNone in
        response <- requests_call "GET" url kwargs ;;
        lift (_process_response response request_info))
       (fun e => ret (failure_response e request_info)))%M.

Definition post (self : APIClient) (path : string) (data params : pyval)
      : M APIResponse.t :=
    (base_url <- lift (_get_base_url self) ;;
     let path := if negb (startswith path "/") then "/" ++ path else path in
     let url := base_url ++ path in
     let request_info :=
       [("method", PStr "POST"); ("url", PStr url); ("params", params); ("data", data)] in
     try_catch
       (let kwargs := _prepare_request_kwargs self params data in
        response <- requests_call "POST" url kwargs ;;
        lift (_process_response response request_info))
       (fun e => ret (failure_response e request_info)))%M.

Definition put (self : APIClient) (path : string) (data params : pyval)
      : M APIResponse.t :=
    (base_url <- lift (_get_base_url self) ;;
     let path := if negb (startswith path "/") then "/" ++ path else path in
     let url := base_url ++ path in
     let request_info :=
       [("method", PStr "PUT"); ("url", PStr url); ("params", params); ("data", data)] in
     try_catch
       (let kwargs := _prepare_request_kwargs self params data in
        response <- requests_call "PUT" url kwargs ;;
        lift (_process_response response request_info))
       (fun e => ret (failure_response e request_info)))%M.

Definition delete (self : APIClient) (path : string) (params : pyval)
      : M APIResponse.t :=
    (base_url <- lift (_get_base_url self) ;;
     let path := if negb (startswith path "/") then "/" ++ path else path in
     let url := base_url ++ path in
     let request_info :=
       [("method", PStr "DELETE"); ("url", PStr url); ("params", params)] in
     try_catch
       (let kwargs := _prepare_request_kwargs self params PNone in
        response <- requests_call "DELETE" url kwargs ;;
        lift (_process_response response request_info))
       (fun e => ret (failure_response e request_info)))%M.

Definition patch (self : APIClient) (path : string) (data params : pyval)
      : M APIResponse.t :=
    (base_url <- lift (_get_base_url self) ;;
     let path := if negb (startswith path "/") then "/" ++ path else path in
     let url := base_url ++ path in
     let request_info :=
       [("method", PStr "PATCH"); ("url", PStr url); ("params", params); ("data", data)] in
     try_catch
       (let kwargs := _prepare_request_kwargs self params data in
        response <- requests_call "PATCH" url kwargs ;;
        lift (_process_response response request_info))
       (fun e => ret (failure_response e request_info)))%M.

End Client.

(** ** The client mode of [cli.py] *)

(** The parsed command line; an option that was not given, or that the
    subcommand does not have, is [None]. *)
Module Namespace.
Record t : Type := mk {
    openapi : string;
    base_url : string;
    timeout : Z;
    verbose : bool;
    method : string;
    path : string;
    params : option string;
    data : option string
  }.
End Namespace.

(** What [format_response] is called with in client mode. *)
Inductive printable : Type :=
| ADict (endpoints : dict (dict pyval))
| AnAPIResponse (response : APIResponse.t).

Definition endpoints_value (endpoints : dict (dict pyval)) : pyval :=
  PDict (map (fun kv => (fst kv, PDict (snd kv))) endpoints).

Definition format_response (response : printable) : M unit :=
  match response with
  | ADict endpoints => emit (PrintJson (endpoints_value endpoints))
  | AnAPIResponse response =>
      (print ("Status Code: " ++ str_int (APIResponse.status_code response)) ;;;
       print ("Success: " ++ str_bool (APIResponse.success response)) ;;;
       (if py_truthy (APIResponse.data response)
        then print (String newline "Data:") ;;;
             emit (PrintJson (APIResponse.data response))
        else ret tt) ;;;
       match APIResponse.error response with
       | Some e =>
           if negb (String.eqb e "")
           then print (String newline "Error: " ++ e)
           else ret tt
       | None => ret tt
       end)%M
  end.

Section CLI.

Variable network : trace -> Request -> result Response.t.

  (** [json.loads] on a command-line argument. *)
Variable json_loads : string -> decoded.

Definition parse_json_arg (arg : option string) : M pyval :=
    match arg with
    | None => ret PNone
    | Some s =>
        if String.eqb s "" then ret PNone
        else
          match json_loads s with
          | Decoded v => ret v
          | Undecodable msg =>
              (print ("Error parsing JSON: " ++ msg) ;;; sys_exit 1)%M
          end
    end.

Definition run_client_mode (args : Namespace.t) : M unit :=
    let config :=
      APIClientConfig.mk (Namespace.openapi args) (Namespace.base_url args)
        [] (Namespace.timeout args) true (Namespace.verbose args) in
    (client <- APIClient_init network config ;;
     if String.eqb (Namespace.method args) "endpoints" then
       format_response (ADict (get_available_endpoints client))
     else
       params <- parse_json_arg (Namespace.params args) ;;
       data <- parse_json_arg (Namespace.data args) ;;
       response <-
         (if String.eqb (Namespace.method args) "get" then
            get network client (Namespace.path args) params
          else if String.eqb (Namespace.method args) "post" then
            post network client (Namespace.path args) data params
          else if String.eqb (Namespace.method args) "put" then
            put network client (Namespace.path args) data params
          else if String.eqb (Namespace.method args) "delete" then
            delete network client (Namespace.path args) params
          else if String.eqb (Namespace.method args) "patch" then
            patch network client (Namespace.path args) data params
          else
            print ("Unknown method: " ++ Namespace.method args) ;;; sys_exit 1) ;;
       format_response (AnAPIResponse response))%M.

  (** The process running [main] in client mode, from an empty trace: what
      it did and the status it exits with. *)
Definition client_process (args : Namespace.t) : Z * trace :=
    let r := run_client_mode args [] in
    (exit_status (fst r), snd r).

End CLI.

(** ** [agent.py]: the document as the agent reads it *)

(** The configuration of the agent; its temperature, a floating point
    number, is left out. *)
Module APIAgentConfig.
Record t : Type := mk {
  openapi_url : string;
  api_base_url : string;
  model_name : string;
  api_key : option string;
  headers : dict string;
  allow_dangerous_requests : bool;
  use_chat_model : bool;
  timeout : Z;
  max_token_limit : Z;
  verbose : bool
}.
End APIAgentConfig.

(** [len(v)]. *)
Definition py_len (v : pyval) : result Z :=
  match v with
  | PStr s => Ok (Z.of_nat (String.length s))
  | PList l => Ok (Z.of_nat (List.length l))
  | PDict d => Ok (Z.of_nat (List.length d))
  | PNone => Raise (Exn TypeError "object of type 'NoneType' has no len()")
  | PBool _ => Raise (Exn TypeError "object of type 'bool' has no len()")
  | PInt _ => Raise (Exn TypeError "object of type 'int' has no len()")
  end.

Module APIAgent.

(** The request of the agent's fetch: [verify] is not passed, and
    [requests] then verifies certificates. *)
Definition spec_request (config : APIAgentConfig.t) : Request :=
  {| req_method := "GET";
     req_url := APIAgentConfig.openapi_url config;
     req_kwargs := {| kw_timeout := APIAgentConfig.timeout config;
                      kw_verify := true;
                      kw_headers := None; kw_params := None; kw_json := None |} |}.

(** [APIAgent._fetch_openapi_spec]; the message it logs on success holds
    [len(spec)], which is computed inside the [try] block. *)
Definition _fetch_openapi_spec (network : trace -> Request -> result Response.t)
    (config : APIAgentConfig.t) : M pyval :=
  try_catch
    (response <- requests_call network "GET" (APIAgentConfig.openapi_url config)
                   (req_kwargs (spec_request config)) ;;
     lift (Response.raise_for_status response) ;;;
     spec <- lift (Response.json response) ;;
     lift (py_len spec) ;;;
     ret spec)%M
    (fun e =>
       let error_msg := "Failed to fetch OpenAPI spec: " ++ exn_str e in
       raise (Exn ValueError error_msg)).

(** The inner loop of [APIAgent.get_available_endpoints]. *)
Fixpoint group_methods (path : string) (items : list (string * pyval))
    (endpoints : dict (list pyval)) : result (dict (list pyval)) :=
  match items with
  | [] => Ok endpoints
  | (method, details) :: rest =>
      if negb (is_supported method) then group_methods path rest endpoints
      else
        let endpoints :=
          if negb (dict_mem (upper method) endpoints)
          then dict_set (upper method) [] endpoints
          else endpoints in
        (summary <- py_get "summary" (PStr "") details ;;
         description <- py_get "description" (PStr "") details ;;
         parameters <- py_get "parameters" (PList []) details ;;
         requestBody <- py_get "requestBody" (PDict []) details ;;
         let endpoint_info :=
           PDict [("path", PStr path); ("summary", summary);
                  ("description", description); ("parameters", parameters);
                  ("requestBody", requestBody)] in
         match dict_get (upper method) endpoints with
         | Some listed =>
             group_methods path rest
               (dict_set (upper method) (listed ++ [endpoint_info])%list endpoints)
         | None => Raise (Exn KeyError (repr_str (upper method)))
         end)%result
  end.

(** The outer loop of [APIAgent.get_available_endpoints]. *)
Fixpoint group_paths (items : list (string * pyval)) (endpoints : dict (list pyval))
    : result (dict (list pyval)) :=
  match items with
  | [] => Ok endpoints
  | (path, methods) :: rest =>
      (method_items <- py_items methods ;;
       endpoints <- group_methods path method_items endpoints ;;
       group_paths rest endpoints)%result
  end.

Definition get_available_endpoints (spec_dict : pyval) : result (dict (list pyval)) :=
  (has_paths <- py_contains "paths" spec_dict ;;
   if negb has_paths then Ok []
   else
     paths <- py_getitem "paths" spec_dict ;;
     items <- py_items paths ;;
     group_paths items [])%result.

End APIAgent.

(** ** A JSON decoder for the examples

    The theorems below hold for any decoder; the examples run this one,
    which reads the integer fragment of JSON (no fractions or exponents, no
    [\u] escapes).  Its error messages are not CPython's. *)

Definition is_ws (c : ascii) : bool :=
  Ascii.eqb c " " || Ascii.eqb c newline || Ascii.eqb c "009" || Ascii.eqb c "013".

Definition is_digit (c : ascii) : bool :=
  (48 <=? nat_of_ascii c)%nat && (nat_of_ascii c <=? 57)%nat.

Fixpoint skip_ws (s : string) : string :=
  match s with
  | String c s' => if is_ws c then skip_ws s' else s
  | EmptyString => s
  end.

(** The text of a string literal after its opening quote, and what follows
    the closing quote. *)
Fixpoint scan_string (s : string) : option (string * string) :=
  match s with
  | EmptyString => None
  | String c s' =>
      if Ascii.eqb c dquote then Some ("", s')
      else if (nat_of_ascii c <? 32)%nat then None
      else if Ascii.eqb c "\" then
        match s' with
        | String e s'' =>
            let plain :=
              if Ascii.eqb e "n" then Some newline
              else if Ascii.eqb e "t" then Some "009"%char
              else if Ascii.eqb e "r" then Some "013"%char
              else if Ascii.eqb e dquote || Ascii.eqb e "\" || Ascii.eqb e "/" then Some e
              else None in
            match plain, scan_string s'' with
            | Some ch, Some (body, rest) => Some (String ch body, rest)
            | _, _ => None
            end
        | EmptyString => None
        end
      else
        match scan_string s' with
        | Some (body, rest) => Some (String c body, rest)
        | None => None
        end
  end.

Fixpoint scan_digits (s : string) (acc : Z) : Z * string :=
  match s with
  | String c s' =>
      if is_digit c then scan_digits s' (10 * acc + Z.of_nat (nat_of_ascii c - 48))
      else (acc, s)
  | EmptyString => (acc, s)
  end.

(** An integer literal: digits with no superfluous leading zero, and no
    fraction or exponent after them. *)
Definition scan_int (s : string) : option (Z * string) :=
  match s with
  | String c s' =>
      if is_digit c then
        let (n, rest) := scan_digits s 0 in
        let leading_zero :=
          Ascii.eqb c "0" && match s' with String d _ => is_digit d | _ => false end in
        let more :=
          match rest with
          | String d _ => Ascii.eqb d "." || Ascii.eqb d "e" || Ascii.eqb d "E"
          | EmptyString => false
          end in
        if leading_zero || more then None else Some (n, rest)
      else None
  | EmptyString => None
  end.

Fixpoint parse_value (fuel : nat) (s : string) : option (pyval * string) :=
  match fuel with
  | O => None
  | S fuel' =>
      let s := skip_ws s in
      if startswith s "null" then Some (PNone, substring 4 (length s - 4) s)
      else if startswith s "true" then Some (PBool true, substring 4 (length s - 4) s)
      else if startswith s "false" then Some (PBool false, substring 5 (length s - 5) s)
      else
        match s with
        | EmptyString => None
        | String c s' =>
            if Ascii.eqb c dquote then
              match scan_string s' with
              | Some (body, rest) => Some (PStr body, rest)
              | None => None
              end
            else if Ascii.eqb c "-" then
              match scan_int s' with
              | Some (n, rest) => Some (PInt (- n), rest)
              | None => None
              end
            else if is_digit c then
              match scan_int s with
              | Some (n, rest) => Some (PInt n, rest)
              | None => None
              end
            else if Ascii.eqb c "[" then
              match skip_ws s' with
              | String "]" rest => Some (PList [], rest)
              | _ =>
                  match parse_elements fuel' s' with
                  | Some (l, rest) => Some (PList l, rest)
                  | None => None
                  end
              end
            else if Ascii.eqb c "{" then
              match skip_ws s' with
              | String "}" rest => Some (PDict [], rest)
              | _ =>
                  match parse_members fuel' s' [] with
                  | Some (d, rest) => Some (PDict d, rest)
                  | None => None
                  end
              end
            else None
        end
  end

with parse_elements (fuel : nat) (s : string) : option (list pyval * string) :=
  match fuel with
  | O => None
  | S fuel' =>
      match parse_value fuel' s with
      | Some (v, rest) =>
          match skip_ws rest with
          | String "," rest' =>
              match parse_elements fuel' rest' with
              | Some (l, rest'') => Some (v :: l, rest'')
              | None => None
              end
          | String "]" rest' => Some ([v], rest')
          | _ => None
          end
      | None => None
      end
  end

with parse_members (fuel : nat) (s : string) (acc : dict pyval)
    : option (dict pyval * string) :=
  match fuel with
  | O => None
  | S fuel' =>
      match skip_ws s with
      | String c s' =>
          if Ascii.eqb c dquote then
            match scan_string s' with
            | Some (k, rest) =>
                match skip_ws rest with
                | String ":" rest' =>
                    match parse_value fuel' rest' with
                    | Some (v, rest'') =>
                        let acc := dict_set k v acc in
                        match skip_ws rest'' with
                        | String "," rest3 => parse_members fuel' rest3 acc
                        | String "}" rest3 => Some (acc, rest3)
                        | _ => None
                        end
                    | None => None
                    end
                | _ => None
                end
            | None => None
            end
          else None
      | EmptyString => None
      end
  end.

Definition json_decode (s : string) : decoded :=
  match parse_value (S (length s)) s with
  | Some (v, rest) =>
      if String.eqb (skip_ws rest) "" then Decoded v else Undecodable "Extra data"
  | None => Undecodable "Expecting value"
  end.

(** A string literal of JSON. *)
Definition q (s : string) : string := String dquote (s ++ String dquote "").

(** ** Definitions for the statements *)

(** *** The five verb methods, as one *)

Inductive verb : Type := GET | POST | PUT | DELETE | PATCH.

Definition verb_name (v : verb) : string :=
  match v with
  | GET => "GET" | POST => "POST" | PUT => "PUT" | DELETE => "DELETE" | PATCH => "PATCH"
  end.

Definition has_body (v : verb) : bool :=
  match v with
  | POST | PUT | PATCH => true
  | GET | DELETE => false
  end.

(** The method of [APIClient] that a verb names. *)
Definition call (network : trace -> Request -> result Response.t) (v : verb)
    (self : APIClient) (path : string) (data params : pyval) : M APIResponse.t :=
  match v with
  | GET => get network self path params
  | POST => post network self path data params
  | PUT => put network self path data params
  | DELETE => delete network self path params
  | PATCH => patch network self path data params
  end.

(** The URL a verb method requests, given the resolved base URL. *)
Definition full_url (base_url path : string) : string :=
  base_url ++ (if startswith path "/" then path else "/" ++ path).

(** What a verb method hands to [requests]. *)
Definition wire_request (v : verb) (self : APIClient) (url : string)
    (data params : pyval) : Request :=
  {| req_method := verb_name v;
     req_url := url;
     req_kwargs :=
       _prepare_request_kwargs self params (if has_body v then data else PNone) |}.

(** The request descriptor a verb method attaches to its result. *)
Definition request_info_of (v : verb) (url : string) (data params : pyval)
    : dict pyval :=
  ([("method", PStr (verb_name v)); ("url", PStr url); ("params", params)]
     ++ (if has_body v then [("data", data)] else []))%list.

(** Two results that differ at most in the request descriptor they echo. *)
Definition same_response (r1 r2 : APIResponse.t) : Prop :=
  APIResponse.status_code r1 = APIResponse.status_code r2
  /\ APIResponse.success r1 = APIResponse.success r2
  /\ APIResponse.data r1 = APIResponse.data r2
  /\ APIResponse.error r1 = APIResponse.error r2
  /\ APIResponse.headers r1 = APIResponse.headers r2.

Definition same_outcome (o1 o2 : outcome APIResponse.t) : Prop :=
  match o1, o2 with
  | Ret r1, Ret r2 => same_response r1 r2
  | Exc e1, Exc e2 => e1 = e2
  | Exit c1, Exit c2 => c1 = c2
  | _, _ => False
  end.

(** *** Well-formed documents *)

Definition is_dict (v : pyval) : bool :=
  match v with PDict _ => true | _ => false end.

(** The operations of one path: what stands under a supported method is an
    operation object. *)
Definition valid_operations (methods : dict pyval) : bool :=
  forallb (fun kv => negb (is_supported (fst kv)) || is_dict (snd kv)) methods.

(** The [paths] of a document: a mapping (its keys are pairwise distinct)
    from paths to mappings from methods to operation objects. *)
Definition valid_paths (paths : dict pyval) : bool :=
  distinct (keys paths)
  && forallb (fun kv => match snd kv with
                        | PDict methods => valid_operations methods
                        | _ => false
                        end) paths.

Definition upper_verbs : list string := ["GET"; "POST"; "PUT"; "DELETE"; "PATCH"].

Definition valid_servers (servers : pyval) : bool :=
  match servers with
  | PList [] => true
  | PList (PDict first :: _) =>
      match dict_get "url" first with
      | None | Some (PStr _) => true
      | Some _ => false
      end
  | _ => false
  end.

(** A document as section 6 of the specification describes it: a mapping
    whose [paths], when there, is as [valid_paths] says and whose [servers],
    when there, is a sequence of objects with a string [url]. *)
Definition valid_document (spec : pyval) : bool :=
  match spec with
  | PDict document =>
      match dict_get "paths" document with
      | None => true
      | Some (PDict paths) => valid_paths paths
      | Some _ => false
      end
      && match dict_get "servers" document with
         | None => true
         | Some servers => valid_servers servers
         end
  | _ => false
  end.

Definition has_scheme (s : string) : bool :=
  startswith s "http://" || startswith s "https://".

(** *** The fetch *)

(** The request of [_fetch_openapi_spec]. *)
Definition spec_request (config : APIClientConfig.t) : Request :=
  {| req_method := "GET";
     req_url := APIClientConfig.openapi_url config;
     req_kwargs := {| kw_timeout := APIClientConfig.timeout config;
                      kw_verify := APIClientConfig.verify_ssl config;
                      kw_headers := None; kw_params := None; kw_json := None |} |}.

Definition fetch_error (cause : string) : exn :=
  Exn ValueError ("Failed to fetch OpenAPI spec: " ++ cause).

(** The status codes [raise_for_status] raises on. *)
Definition error_status (status : Z) : bool := (400 <=? status) && (status <? 600).

(** The status codes outside 200..299. *)
Definition non_2xx (status : Z) : bool := negb ((200 <=? status) && (status <? 300)).

(** When the fetch raises: the GET raised, or the status is in 400..599, or
    the body does not decode. *)
Definition fetch_fails (network : trace -> Request -> result Response.t)
    (config : APIClientConfig.t) (t : trace) : Prop :=
  match network t (spec_request config) with
  | Raise _ => True
  | Ok response =>
      error_status (Response.status_code response) = true
      \/ exists msg, Response.body response = Undecodable msg
  end.

(** The claim as the specification words it: the fetch has to fail on every
    status outside 200..299. *)
Definition fetch_fails_non_2xx (network : trace -> Request -> result Response.t)
    (config : APIClientConfig.t) (t : trace) : Prop :=
  match network t (spec_request config) with
  | Raise _ => True
  | Ok response =>
      non_2xx (Response.status_code response) = true
      \/ exists msg, Response.body response = Undecodable msg
  end.

(** *** The command line *)

(** The configuration [run_client_mode] builds from the arguments. *)
Definition cli_config (args : Namespace.t) : APIClientConfig.t :=
  APIClientConfig.mk (Namespace.openapi args) (Namespace.base_url args)
    [] (Namespace.timeout args) true (Namespace.verbose args).

(** The verb a subcommand names. *)
Definition verb_of (method : string) : option verb :=
  if String.eqb method "get" then Some GET
  else if String.eqb method "post" then Some POST
  else if String.eqb method "put" then Some PUT
  else if String.eqb method "delete" then Some DELETE
  else if String.eqb method "patch" then Some PATCH
  else None.

(** An argument that is given, is not empty and does not decode. *)
Definition malformed (json_loads : string -> decoded) (arg : option string) : bool :=
  match arg with
  | Some s =>
      negb (String.eqb s "")
      && match json_loads s with Undecodable _ => true | Decoded _ => false end
  | None => false
  end.

(** The value of an argument that is not malformed. *)
Definition arg_value (json_loads : string -> decoded) (arg : option string) : pyval :=
  match arg with
  | Some s =>
      if String.eqb s "" then PNone
      else match json_loads s with Decoded v => v | Undecodable _ => PNone end
  | None => PNone
  end.


(** *** The index, and the agent *)

(** The shape [_parse_endpoints] needs: [paths], when there, is a mapping
    whose values are mappings, in which what stands under a supported
    method is a mapping. *)
Definition index_shape (document : dict pyval) : bool :=
  match dict_get "paths" document with
  | None => true
  | Some (PDict paths) =>
      forallb (fun kv => match snd kv with
                         | PDict methods => valid_operations methods
                         | _ => false
                         end) paths
  | Some _ => false
  end.

(** What the index keeps of an operation object. *)
Definition operation_metadata (op : dict pyval) : pyval :=
  PDict [("summary", dict_get_default "summary" (PStr "") op);
         ("description", dict_get_default "description" (PStr "") op);
         ("parameters", dict_get_default "parameters" (PList []) op);
         ("requestBody", dict_get_default "requestBody" (PDict []) op);
         ("responses", dict_get_default "responses" (PDict []) op)].

(** The agent lists [path] under [method]. *)
Definition listed (method path : string) (groups : dict (list pyval)) : Prop :=
  exists fields,
    In (PDict (("path", PStr path) :: fields)) (dict_get_default method [] groups).

(** A value that has a length. *)
Definition has_len (v : pyval) : bool :=
  match v with
  | PNone | PBool _ | PInt _ => false
  | PStr _ | PList _ | PDict _ => true
  end.

(** When the agent's fetch raises: as the client's does, and also when the
    body decodes to a value without a length. *)
Definition agent_fetch_fails (network : trace -> Request -> result Response.t)
    (config : APIAgentConfig.t) (t : trace) : Prop :=
  match network t (APIAgent.spec_request config) with
  | Raise _ => True
  | Ok response =>
      error_status (Response.status_code response) = true
      \/ (exists msg, Response.body response = Undecodable msg)
      \/ (exists spec, Response.body response = Decoded spec /\ has_len spec = false)
  end.

(** *** Case and text, as the statements read them *)

(** The letters of the ASCII alphabet, each with its capital. *)
Definition alphabet : list (ascii * ascii) :=
  [("a", "A"); ("b", "B"); ("c", "C"); ("d", "D"); ("e", "E"); ("f", "F");
   ("g", "G"); ("h", "H"); ("i", "I"); ("j", "J"); ("k", "K"); ("l", "L");
   ("m", "M"); ("n", "N"); ("o", "O"); ("p", "P"); ("q", "Q"); ("r", "R");
   ("s", "S"); ("t", "T"); ("u", "U"); ("v", "V"); ("w", "W"); ("x", "X");
   ("y", "Y"); ("z", "Z")]%char.

(** The capital of a small letter, the small letter of a capital; any other
    character is left as it is. *)
Definition capital (c : ascii) : ascii :=
  match find (fun p => Ascii.eqb (fst p) c) alphabet with
  | Some p => snd p
  | None => c
  end.

Definition small (c : ascii) : ascii :=
  match find (fun p => Ascii.eqb (snd p) c) alphabet with
  | Some p => fst p
  | None => c
  end.

(** The upper-cased and the lower-cased form of a string, read off the
    alphabet. *)
Fixpoint uppercase (s : string) : string :=
  match s with
  | EmptyString => EmptyString
  | String c s' => String (capital c) (uppercase s')
  end.

Fixpoint lowercase (s : string) : string :=
  match s with
  | EmptyString => EmptyString
  | String c s' => String (small c) (lowercase s')
  end.

(** A string of ASCII characters. *)
Fixpoint is_ascii (s : string) : bool :=
  match s with
  | EmptyString => true
  | String c s' => (nat_of_ascii c <? 128)%nat && is_ascii s'
  end.

(** A printable ASCII character that [repr] neither escapes nor quotes
    with. *)
Definition plain_char (c : ascii) : bool :=
  (32 <=? nat_of_ascii c)%nat && (nat_of_ascii c <? 127)%nat
  && negb (Ascii.eqb c "'") && negb (Ascii.eqb c dquote) && negb (Ascii.eqb c "\").

Fixpoint plain (s : string) : bool :=
  match s with
  | EmptyString => true
  | String c s' => plain_char c && plain s'
  end.

(** The strings of a value: its string values and its keys, at any depth. *)
Fixpoint strings_of (v : pyval) : list string :=
  match v with
  | PStr s => [s]
  | PList l => flat_map strings_of l
  | PDict d => flat_map (fun kv => fst kv :: strings_of (snd kv)) d
  | _ => []
  end.

(** A value all of whose strings are ASCII. *)
Definition ascii_only (v : pyval) : bool := forallb is_ascii (strings_of v).

(** The responses on which [_process_response] has a result: the body is
    empty, or it decodes, or decoding it fails with a JSON decode error. *)
Definition decodes_or_json_error (response : Response.t) : bool :=
  String.eqb (Response.content response) ""
  || match Response.body response with
     | Decoded _ => true
     | Undecodable _ =>
         match Response.json_raises response with
         | JSONDecodeError => true
         | _ => false
         end
     end.

(** The [paths] of a document, as section 6 of the specification has
    them: a mapping, its keys pairwise distinct, from paths to mappings
    from methods to operations, where what stands under a method whose
    lower-cased form is one of the five verbs is an operation object. *)
Definition paths_of_operations (paths : dict pyval) : bool :=
  distinct (keys paths)
  && forallb
       (fun kv =>
          match snd kv with
          | PDict methods =>
              forallb
                (fun md =>
                   negb (existsb (String.eqb (lowercase (fst md)))
                           ["get"; "post"; "put"; "delete"; "patch"])
                   || is_dict (snd md))
                methods
          | _ => false
          end)
       paths.

(** A list or a string in which [paths] does not occur. *)
Definition without_paths (spec : pyval) : Prop :=
  (exists l, spec = PList l /\ ~ In (PStr "paths") l)
  \/ (exists s, spec = PStr s /\ forall a b, s <> (a ++ "paths" ++ b)%string).

(** ** Sample configuration, documents and networks for the examples *)

Definition sample_config : APIClientConfig.t :=
  APIClientConfig.mk "http://localhost:7272/openapi.json" "http://localhost:7272"
    [] 30 true false.

(** An HTTP response whose body is the given text, for the small texts of
    the examples: when such a text does not decode, [response.json()]
    raises a JSON decode error. *)
Definition http_response (status : Z) (reason url text : string) : Response.t :=
  Response.mk status reason url text text (json_decode text) JSONDecodeError
    [("Content-Type", "application/json")].

(** A network that answers the GET of [spec_url] with [spec] and any other
    request with [other]. *)
Definition serve (spec_url : string) (spec other : result Response.t)
    : trace -> Request -> result Response.t :=
  fun _ r => if String.eqb (req_url r) spec_url then spec else other.

(** The document of the health-check scenario. *)
Definition health_text : string :=
  "{" ++ q "paths" ++ ": {" ++ q "/v3/health" ++ ": {" ++ q "get" ++ ": {"
      ++ q "summary" ++ ": " ++ q "Health check" ++ "}}}}".

Definition health_spec : pyval :=
  PDict [("paths",
          PDict [("/v3/health",
                  PDict [("get", PDict [("summary", PStr "Health check")])])])].

Definition health_endpoints : dict (dict pyval) :=
  [("/v3/health",
    [("GET", PDict [("summary", PStr "Health check"); ("description", PStr "");
                    ("parameters", PList []); ("requestBody", PDict []);
                    ("responses", PDict [])])])].

Definition health_client : APIClient :=
  {| config := sample_config; spec_dict := health_spec; endpoints := health_endpoints |}.

Definition spec_response (text : string) : result Response.t :=
  Ok (http_response 200 "OK" "http://localhost:7272/openapi.json" text).

Definition connection_refused : exn :=
  Exn ConnectionError "Connection refused".

Definition info_only_text : string :=
  "{" ++ q "openapi" ++ ": " ++ q "3.0.0" ++ ", " ++ q "info" ++ ": {"
      ++ q "title" ++ ": " ++ q "demo" ++ "}}".

Definition pets_paths : dict pyval :=
  [("/pets",
    PDict [("get", PDict [("summary", PStr "List pets")]);
           ("Post", PDict []);
           ("options", PDict []);
           ("parameters", PList [])]);
   ("/ping", PDict [("head", PDict []); ("trace", PNone)])].

Definition pets_document : dict pyval :=
  [("openapi", PStr "3.0.0"); ("paths", PDict pets_paths)].

Definition client_with (base_url : string) (document : dict pyval) : APIClient :=
  {| config := APIClientConfig.mk "http://localhost:7272/openapi.json" base_url
                 [] 30 true false;
     spec_dict := PDict document;
     endpoints := [] |}.

(** A server that answers the GET of the document with status 300 and the
    document as body; [requests] follows no redirection from a 300. *)
Definition multiple_choices : trace -> Request -> result Response.t :=
  serve "http://localhost:7272/openapi.json"
    (Ok (http_response 300 "Multiple Choices" "http://localhost:7272/openapi.json"
           health_text))
    (Raise connection_refused).

Definition sample_args (method path : string) (params data : option string)
    : Namespace.t :=
  Namespace.mk "http://localhost:7272/openapi.json" "http://localhost:7272"
    30 false method path params data.

(** A network that serves the health-check document and answers any other
    request with [other]. *)
Definition health_network (other : result Response.t)
    : trace -> Request -> result Response.t :=
  serve "http://localhost:7272/openapi.json" (spec_response health_text) other.



Definition token_client : APIClient :=
  {| config := APIClientConfig.mk "http://localhost:7272/openapi.json"
                 "http://localhost:7272"
                 [("Authorization", "Bearer t0k3n"); ("Content-Type", "text/plain")]
                 5 false true;
     spec_dict := health_spec;
     endpoints := health_endpoints |}.

Definition twice_paths : dict pyval :=
  [("/items",
    PDict [("get", PDict [("summary", PStr "first"); ("x-internal", PBool true)]);
           ("GET", PDict [("summary", PStr "second");
                          ("responses", PDict [("200", PDict [])])]);
           ("head", PStr "not looked at")])].

Definition twice_client : APIClient :=
  {| config := sample_config;
     spec_dict := PDict [("paths", PDict twice_paths)];
     endpoints :=
       [("/items",
         [("GET", PDict [("summary", PStr "second"); ("description", PStr "");
                         ("parameters", PList []); ("requestBody", PDict []);
                         ("responses", PDict [("200", PDict [])])])])] |}.

Definition sample_agent_config : APIAgentConfig.t :=
  APIAgentConfig.mk "http://localhost:7272/openapi.json" "http://localhost:7272"
    "gpt-3.5-turbo" None [] true true 30 4000 false.

(** A body of 100000 arrays, one inside the other: decoding it runs out of
    recursion depth. *)
Definition nested_arrays : string :=
  N.iter 100000 (String "[") (N.iter 100000 (String "]") "").

Definition nested_response : Response.t :=
  Response.mk 200 "OK" "http://localhost:7272/v3/health"
    nested_arrays nested_arrays
    (Undecodable
       "maximum recursion depth exceeded while decoding a JSON array from a unicode string")
    RecursionError
    [("Content-Type", "application/json")].

(** * Properties *)

(** ** Strings and dictionaries *)


Lemma upper_lower_ascii (c : ascii) : upper_ascii (lower_ascii c) = upper_ascii c.
Proof. destruct c as [[] [] [] [] [] [] [] []]; reflexivity. Qed.


Lemma upper_lower (s : string) : upper (lower s) = upper s.
Proof.
  induction s as [| c s IH]; simpl.
  - reflexivity.
  - now rewrite upper_lower_ascii, IH.
Qed.

(** [upper] and [lower] are the upper-cased and the lower-cased form that
    the alphabet gives. *)
Lemma upper_ascii_capital (c : ascii) : upper_ascii c = capital c.
Proof. destruct c as [[] [] [] [] [] [] [] []]; reflexivity. Qed.

Lemma lower_ascii_small (c : ascii) : lower_ascii c = small c.
Proof. destruct c as [[] [] [] [] [] [] [] []]; reflexivity. Qed.

Lemma upper_uppercase (s : string) : upper s = uppercase s.
Proof.
  induction s as [| c s IH]; simpl; [reflexivity |].
  now rewrite upper_ascii_capital, IH.
Qed.

Lemma lower_lowercase (s : string) : lower s = lowercase s.
Proof.
  induction s as [| c s IH]; simpl; [reflexivity |].
  now rewrite lower_ascii_small, IH.
Qed.

Lemma is_supported_lowercase (method : string) :
  is_supported method = true
  <-> In (lowercase method) ["get"; "post"; "put"; "delete"; "patch"].
Proof.
  unfold is_supported, supported_verbs. rewrite lower_lowercase, existsb_exists.
  split.
  - intros [x [Hin Hx]]. apply String.eqb_eq in Hx. now rewrite Hx.
  - intros Hin. exists (lowercase method). split; [exact Hin | apply String.eqb_refl].
Qed.

Section Dict.
Context {V : Type}.
Implicit Types (d : dict V) (k : string) (v : V).

Lemma dict_get_None k d : dict_get k d = None <-> ~ In k (keys d).
  Proof.
    induction d as [| [k' v'] d IH]; simpl.
    - tauto.
    - destruct (String.eqb_spec k k') as [-> | Hne].
      + split; [discriminate | intros H; exfalso; apply H; now left].
      + rewrite IH. split.
        * intros H [Heq | Hin]; [now apply Hne | now apply H].
        * intros H Hin. apply H. now right.
  Qed.

Lemma dict_get_Some_In k v d : dict_get k d = Some v -> In (k, v) d.
  Proof.
    induction d as [| [k' v'] d IH]; simpl; [discriminate |].
    destruct (String.eqb_spec k k') as [-> | Hne].
    - intros [= ->]. now left.
    - intros H. right. now apply IH.
  Qed.

Lemma dict_get_set_same k v d : dict_get k (dict_set k v d) = Some v.
  Proof.
    induction d as [| [k' v'] d IH]; simpl.
    - now rewrite String.eqb_refl.
    - destruct (String.eqb_spec k k') as [-> | Hne]; simpl.
      + now rewrite String.eqb_refl.
      + destruct (String.eqb_spec k k'); [contradiction | exact IH].
  Qed.

Lemma dict_get_set_other k k' v d :
    k' <> k -> dict_get k' (dict_set k v d) = dict_get k' d.
  Proof.
    intros Hne. induction d as [| [k0 v0] d IH]; simpl.
    - destruct (String.eqb_spec k' k); [contradiction | reflexivity].
    - destruct (String.eqb_spec k k0) as [-> | Hk]; simpl.
      + destruct (String.eqb_spec k' k0); [contradiction | reflexivity].
      + destruct (String.eqb_spec k' k0); [reflexivity | exact IH].
  Qed.

Lemma keys_dict_set k v d : forall x, In x (keys (dict_set k v d)) <-> x = k \/ In x (keys d).
  Proof.
    intros x. induction d as [| [k0 v0] d IH]; simpl.
    - intuition.
    - destruct (String.eqb_spec k k0) as [-> | Hk]; simpl.
      + intuition.
      + rewrite IH. intuition.
  Qed.

Lemma dict_set_fresh k v d : ~ In k (keys d) -> dict_set k v d = (d ++ [(k, v)])%list.
  Proof.
    induction d as [| [k0 v0] d IH]; simpl; intros Hn.
    - reflexivity.
    - destruct (String.eqb_spec k k0) as [-> | Hk].
      + exfalso. apply Hn. now left.
      + f_equal. apply IH. intros H. apply Hn. now right.
  Qed.

Lemma dict_set_last k v v' d :
    ~ In k (keys d) -> dict_set k v' (d ++ [(k, v)])%list = (d ++ [(k, v')])%list.
  Proof.
    induction d as [| [k0 v0] d IH]; simpl; intros Hn.
    - now rewrite String.eqb_refl.
    - destruct (String.eqb_spec k k0) as [-> | Hk].
      + exfalso. apply Hn. now left.
      + f_equal. apply IH. intros H. apply Hn. now right.
  Qed.

Lemma dict_get_app_last k v d : ~ In k (keys d) -> dict_get k (d ++ [(k, v)])%list = Some v.
  Proof.
    intros Hn. rewrite <- (dict_set_fresh k v d Hn). apply dict_get_set_same.
  Qed.
End Dict.

Lemma distinct_NoDup (l : list string) : distinct l = true <-> NoDup l.
Proof.
  induction l as [| x l IH]; simpl.
  - split; [constructor | reflexivity].
  - rewrite andb_true_iff, negb_true_iff, IH. split.
    + intros [Hx Hl]. constructor; [| exact Hl].
      intros Hin. assert (existsb (String.eqb x) l = true) as E.
      { apply existsb_exists. exists x. split; [exact Hin | apply String.eqb_refl]. }
      congruence.
    + intros H. inversion H as [| ? ? Hx Hl]; subst. split; [| exact Hl].
      destruct (existsb (String.eqb x) l) eqn:E; [| reflexivity].
      apply existsb_exists in E. destruct E as [y [Hy Heq]].
      apply String.eqb_eq in Heq. subst y. contradiction.
Qed.

(** ** Looking an endpoint up *)


Lemma get_endpoint_details_unknown_path (self : APIClient) (path method : string) :
  ~ In path (keys (endpoints self)) ->
  get_endpoint_details self path method
    = Raise (Exn ValueError (path_not_found path)).
Proof.
  intros Hp. apply dict_get_None in Hp.
  unfold get_endpoint_details. now rewrite Hp.
Qed.



(** The path is matched case-sensitively: [/V3/HEALTH] is not [/v3/health],
    while [get], [Get] and [GET] name the same method. *)
Example get_endpoint_details_case_examples :
  get_endpoint_details health_client "/V3/HEALTH" "GET"
    = Raise (Exn ValueError "Path '/V3/HEALTH' not found in API specification")
  /\ get_endpoint_details health_client "/v3/health" "get"
      = get_endpoint_details health_client "/v3/health" "GET"
  /\ get_endpoint_details health_client "/v3/health" "Get"
      = get_endpoint_details health_client "/v3/health" "GET"
  /\ exists details, get_endpoint_details health_client "/v3/health" "get" = Ok details.
Proof. repeat split. eexists. reflexivity. Qed.



(** The two lookups of the specification, on an index where [/v3/health]
    has GET only. *)
Example get_endpoint_details_two_causes :
  get_endpoint_details health_client "/unknown" "GET"
    = Raise (Exn ValueError "Path '/unknown' not found in API specification")
  /\ get_endpoint_details health_client "/v3/health" "TRACE"
     = Raise (Exn ValueError
                "Method 'TRACE' not found for path '/v3/health' in API specification").
Proof. split; reflexivity. Qed.

(** ** A document without [paths] *)

Lemma parse_endpoints_without_paths (d : dict pyval) :
  ~ In "paths" (keys d) -> _parse_endpoints (PDict d) = Ok [].
Proof.
  intros H. apply dict_get_None in H.
  unfold _parse_endpoints. simpl. unfold dict_mem. now rewrite H.
Qed.

(** C9. When the document that was fetched is a mapping without the key
    [paths], the construction returns a client; its index is empty, so
    [get_available_endpoints] is empty and every [get_endpoint_details]
    fails with the unknown-path message. *)
Theorem construction_without_paths
    (network : trace -> Request -> result Response.t)
    (config : APIClientConfig.t) (t t' : trace) (d : dict pyval) :
  _fetch_openapi_spec network config t = (Ret (PDict d), t') ->
  ~ In "paths" (keys d) ->
  exists client,
    APIClient_init network config t = (Ret client, t')
    /\ spec_dict client = PDict d
    /\ endpoints client = []
    /\ get_available_endpoints client = []
    /\ forall path method,
         get_endpoint_details client path method
           = Raise (Exn ValueError (path_not_found path)).
Proof.
  intros Hfetch Hpaths.
  exists {| config := config; spec_dict := PDict d; endpoints := [] |}.
  split.
  - unfold APIClient_init, bind. rewrite Hfetch.
    now rewrite (parse_endpoints_without_paths d Hpaths).
  - repeat split.
Qed.

(** On a server whose document has [openapi] and [info] only. *)
Lemma construction_without_paths_witness :
  exists client,
    APIClient_init (serve "http://localhost:7272/openapi.json"
                      (spec_response info_only_text) (Raise connection_refused))
      sample_config [] 
    = (Ret client,
       [HttpRequest {| req_method := "GET";
                       req_url := "http://localhost:7272/openapi.json";
                       req_kwargs := {| kw_timeout := 30; kw_verify := true;
                                        kw_headers := None; kw_params := None;
                                        kw_json := None |} |}])
    /\ spec_dict client
       = PDict [("openapi", PStr "3.0.0"); ("info", PDict [("title", PStr "demo")])]
    /\ endpoints client = []
    /\ get_available_endpoints client = []
    /\ forall path method,
         get_endpoint_details client path method
           = Raise (Exn ValueError (path_not_found path)).
Proof.
  apply (construction_without_paths _ sample_config []).
  - reflexivity.
  - simpl. intros [H | [H | []]]; discriminate.
Defined.

(** ** Normalising a response *)

(** The request descriptor has no part in the other fields of the result,
    nor in the exception when decoding raises one that is not caught. *)
Lemma process_response_descriptor (response : Response.t) (i1 i2 : dict pyval) :
  match _process_response response i1, _process_response response i2 with
  | Ok r1, Ok r2 => same_response r1 r2
  | Raise e1, Raise e2 => e1 = e2
  | _, _ => False
  end.
Proof.
  unfold _process_response, Response.json.
  destruct (negb (Response.content response =? "")%string);
    destruct (Response.body response); simpl; try solve [repeat split].
  destruct (Response.json_raises response); simpl; repeat split.
Qed.

(** The two scenarios of the specification: a 200 with [{"status":"ok"}]
    and a 503 with [{"detail":"unavailable"}]. *)
Example process_response_scenarios :
  _process_response
    (http_response 200 "OK" "http://localhost:7272/v3/health"
       ("{" ++ q "status" ++ ":" ++ q "ok" ++ "}")) []
  = Ok {| APIResponse.status_code := 200;
          APIResponse.success := true;
          APIResponse.data := PDict [("status", PStr "ok")];
          APIResponse.error := None;
          APIResponse.headers := [("Content-Type", "application/json")];
          APIResponse.request_info := [] |}
  /\ _process_response
       (http_response 503 "Service Unavailable" "http://localhost:7272/v3/health"
          ("{" ++ q "detail" ++ ":" ++ q "unavailable" ++ "}")) []
     = Ok {| APIResponse.status_code := 503;
             APIResponse.success := false;
             APIResponse.data := PDict [("detail", PStr "unavailable")];
             APIResponse.error := Some "{'detail': 'unavailable'}";
             APIResponse.headers := [("Content-Type", "application/json")];
             APIResponse.request_info := [] |}
  /\ _process_response
       (http_response 404 "Not Found" "http://localhost:7272/nowhere" "") []
     = Ok {| APIResponse.status_code := 404;
             APIResponse.success := false;
             APIResponse.data := PNone;
             APIResponse.error := Some "None";
             APIResponse.headers := [("Content-Type", "application/json")];
             APIResponse.request_info := [] |}
  /\ _process_response
       (http_response 502 "Bad Gateway" "http://localhost:7272/v3/health"
          "<html>Bad Gateway</html>") []
     = Ok {| APIResponse.status_code := 502;
             APIResponse.success := false;
             APIResponse.data := PStr "<html>Bad Gateway</html>";
             APIResponse.error := Some "<html>Bad Gateway</html>";
             APIResponse.headers := [("Content-Type", "application/json")];
             APIResponse.request_info := [] |}.
Proof. repeat split. Qed.

(** ** The five verb methods *)

(** What a verb method does once the base URL is resolved. *)
Lemma call_unfold network v self path data params t base_url :
  _get_base_url self = Ok base_url ->
  let url := full_url base_url path in
  let r := wire_request v self url data params in
  let info := request_info_of v url data params in
  call network v self path data params t =
    match network t r with
    | Ok response =>
        match _process_response response info with
        | Ok result => (Ret result, (t ++ [HttpRequest r])%list)
        | Raise e => (Ret (failure_response e info), (t ++ [HttpRequest r])%list)
        end
    | Raise e => (Ret (failure_response e info), (t ++ [HttpRequest r])%list)
    end.
Proof.
  intros Hb url r info. subst url r info.
  unfold full_url, wire_request, request_info_of.
  destruct v; simpl; unfold get, post, put, delete, patch;
    unfold bind, try_catch, requests_call, lift, ret, raise; rewrite Hb; simpl;
    destruct (startswith path "/"); simpl;
    match goal with |- context [network t ?r] => destruct (network t r) as [resp | e] end;
    try reflexivity;
    match goal with
    | |- context [_process_response ?a ?b] => destruct (_process_response a b)
    end; reflexivity.
Qed.

(** A verb method whose base URL cannot be resolved raises before anything
    is sent. *)
Lemma call_base_url_raises network v self path data params t e :
  _get_base_url self = Raise e ->
  call network v self path data params t = (Exc e, t).
Proof.
  intros Hb. destruct v; simpl; unfold get, post, put, delete, patch;
    unfold bind, lift, raise; now rewrite Hb.
Qed.

(** ** What the result of a response holds *)

Lemma startswith_split (s p : string) :
  startswith s p = true -> exists b, s = (p ++ b)%string.
Proof.
  revert s. induction p as [| a p IH]; intros s.
  - intros _. now exists s.
  - destruct s as [| c s]; simpl; [discriminate |].
    intros H. apply andb_true_iff in H. destruct H as [Hc H].
    apply Ascii.eqb_eq in Hc. subst c.
    destruct (IH s H) as [b ->]. now exists b.
Qed.

Lemma startswith_prefix (p b : string) : startswith (p ++ b) p = true.
Proof.
  induction p as [| a p IH]; simpl; [reflexivity |].
  now rewrite Ascii.eqb_refl, IH.
Qed.

Lemma append_empty (s : string) : (s ++ "")%string = s.
Proof. induction s as [| c s IH]; simpl; [reflexivity | now rewrite IH]. Qed.

Lemma append_associative (a b c : string) : ((a ++ b) ++ c = a ++ (b ++ c))%string.
Proof. induction a as [| x a IH]; simpl; [reflexivity | now rewrite IH]. Qed.

(** [p in s] holds exactly when [s] is some text, then [p], then some
    text. *)
Lemma is_substring_occurs (p s : string) :
  is_substring p s = true <-> exists a b, s = (a ++ p ++ b)%string.
Proof.
  split.
  - induction s as [| c s IH]; simpl.
    + rewrite orb_false_r. intros H. apply startswith_split in H.
      destruct H as [b Hb]. exists "", b. exact Hb.
    + intros H. apply orb_true_iff in H. destruct H as [H | H].
      * apply startswith_split in H. destruct H as [b Hb]. exists "", b. exact Hb.
      * destruct (IH H) as [a [b ->]]. exists (String c a), b. reflexivity.
  - intros [a [b ->]]. induction a as [| c a IH]; simpl.
    + destruct (p ++ b)%string eqn:E; simpl.
      * destruct p; [reflexivity | discriminate].
      * rewrite <- E. now rewrite startswith_prefix.
    + rewrite IH. apply orb_true_r.
Qed.

Lemma is_substring_left (p a b : string) :
  is_substring p a = true -> is_substring p (a ++ b) = true.
Proof.
  intros H. apply is_substring_occurs in H. destruct H as [x [y ->]].
  apply is_substring_occurs. exists x, (y ++ b)%string.
  now rewrite !append_associative.
Qed.

Lemma is_substring_right (p a b : string) :
  is_substring p b = true -> is_substring p (a ++ b) = true.
Proof.
  intros H. apply is_substring_occurs in H. destruct H as [x [y ->]].
  apply is_substring_occurs. exists (a ++ x)%string, y.
  now rewrite !append_associative.
Qed.

Lemma is_substring_join (p sep x : string) (l : list string) :
  In x l -> is_substring p x = true -> is_substring p (join sep l) = true.
Proof.
  induction l as [| y l IH]; intros Hin Hx; [destruct Hin |].
  destruct l as [| z l].
  - destruct Hin as [-> | []]. exact Hx.
  - change (join sep (y :: z :: l)) with (y ++ sep ++ join sep (z :: l))%string.
    destruct Hin as [-> | Hin].
    + now apply is_substring_left.
    + apply is_substring_right, is_substring_right. now apply IH.
Qed.

Lemma repr_plain_char (c : ascii) :
  plain_char c = true -> repr_char "'" c = String c "" /\ Ascii.eqb "'" c = false.
Proof. destruct c as [[] [] [] [] [] [] [] []]; try discriminate; split; reflexivity. Qed.

(** [repr] of a plain string is the string between single quotes. *)
Lemma repr_plain (s : string) :
  plain s = true -> repr_str s = String "'" (s ++ "'").
Proof.
  intros Hp.
  assert (repr_chars "'" s = s /\ has_char "'" s = false) as [Hr Hh].
  { induction s as [| c s IH]; [split; reflexivity |].
    simpl in Hp. apply andb_true_iff in Hp. destruct Hp as [Hc Hs].
    destruct (IH Hs) as [IHr IHh]. destruct (repr_plain_char c Hc) as [Hrc Hq].
    split.
    - simpl. now rewrite Hrc, IHr.
    - unfold has_char in *.
      change (is_substring "'" (String c s))
        with (Ascii.eqb "'" c && true || is_substring "'" s).
      now rewrite Hq, IHh. }
  unfold repr_str. rewrite Hh. cbv zeta. cbn [andb]. now rewrite Hr.
Qed.

Section PyvalInduction.
Variable P : pyval -> Prop.
Hypothesis HNone : P PNone.
Hypothesis HBool : forall b, P (PBool b).
Hypothesis HInt : forall z, P (PInt z).
Hypothesis HStr : forall s, P (PStr s).
Hypothesis HList : forall l, Forall P l -> P (PList l).
Hypothesis HDict : forall d, Forall (fun kv => P (snd kv)) d -> P (PDict d).

(** Induction on a value, with the property at hand for the members of a
    list and for the values of a mapping. *)
Lemma pyval_induction : forall v, P v.
Proof.
  fix IH 1. intros [| b | z | s | l | d].
  - exact HNone.
  - apply HBool.
  - apply HInt.
  - apply HStr.
  - apply HList. induction l as [| x l IHl]; constructor; [apply IH | exact IHl].
  - apply HDict. induction d as [| [k x] d IHd]; constructor; [apply IH | exact IHd].
Qed.
End PyvalInduction.

(** What Python prints for a value holds every plain string of the value. *)
Lemma py_repr_contains (v : pyval) :
  forall s, In s (strings_of v) -> plain s = true -> is_substring s (py_repr v) = true.
Proof.
  induction v as [| b | z | s0 | l IHl | d IHd] using pyval_induction;
    intros s Hin Hp; try (now destruct Hin).
  - destruct Hin as [<- | []].
    change (py_repr (PStr s0)) with (repr_str s0). rewrite (repr_plain s0 Hp).
    apply is_substring_occurs. exists "'", "'". reflexivity.
  - simpl in Hin. apply in_flat_map in Hin. destruct Hin as [x [Hx Hs]].
    rewrite Forall_forall in IHl.
    change (py_repr (PList l)) with ("[" ++ (join ", " (map py_repr l) ++ "]"))%string.
    apply is_substring_right, is_substring_left.
    apply (is_substring_join s ", " (py_repr x)).
    + now apply in_map.
    + now apply IHl.
  - simpl in Hin. apply in_flat_map in Hin. destruct Hin as [kv [Hkv Hs]].
    rewrite Forall_forall in IHd.
    change (py_repr (PDict d))
      with ("{" ++ (join ", "
                      (map (fun kv => repr_str (fst kv) ++ ": " ++ py_repr (snd kv)) d)
                    ++ "}"))%string.
    apply is_substring_right, is_substring_left.
    apply (is_substring_join s ", "
             (repr_str (fst kv) ++ ": " ++ py_repr (snd kv))%string).
    + apply (in_map (fun kv => repr_str (fst kv) ++ ": " ++ py_repr (snd kv))%string).
      exact Hkv.
    + destruct Hs as [<- | Hs].
      * apply is_substring_left. rewrite (repr_plain _ Hp).
        apply is_substring_occurs. exists "'", "'". reflexivity.
      * apply is_substring_right, is_substring_right. now apply (IHd kv).
Qed.

Lemma py_str_contains (v : pyval) (s : string) :
  In s (strings_of v) -> plain s = true -> is_substring s (py_str v) = true.
Proof.
  intros Hin Hp. destruct v; try (now apply py_repr_contains).
  destruct Hin as [<- | []]. simpl.
  apply is_substring_occurs. exists "", "". simpl. now rewrite append_empty.
Qed.

(** C2, as the code has it.  On a response whose body is empty, or decodes,
    or fails to decode with a JSON decode error, [_process_response]
    returns a result with the response's status code, in which: [data] is
    absent for an empty body, the decoded body when it decodes, the raw
    text otherwise; [success] holds exactly when the status code is below
    400; [error] is absent on success and otherwise is [str(data)]: the
    text [None] for an empty body, the raw text when decoding failed, the
    string itself when the body decodes to a string, and a text that holds
    every plain string and key of the decoded body.  On a response whose
    decoding raises anything else, [_process_response] raises that
    exception, and the verb method that received the response returns the
    result of a failed request: status 500, no data, no headers. *)
Theorem process_response_normalizes (response : Response.t) (request_info : dict pyval) :
  (decodes_or_json_error response = true ->
   exists result,
     _process_response response request_info = Ok result
     /\ APIResponse.status_code result = Response.status_code response
     /\ APIResponse.request_info result = request_info
     /\ (Response.content response = "" -> APIResponse.data result = PNone)
     /\ (forall v, Response.content response <> "" ->
                   Response.body response = Decoded v ->
                   APIResponse.data result = v)
     /\ (forall msg, Response.content response <> "" ->
                     Response.body response = Undecodable msg ->
                     APIResponse.data result = PStr (Response.text response))
     /\ (APIResponse.success result = true <-> Response.status_code response < 400)
     /\ (APIResponse.success result = true -> APIResponse.error result = None)
     /\ (APIResponse.success result = false ->
         exists e,
           APIResponse.error result = Some e
           /\ (Response.content response = "" -> e = "None")
           /\ (forall msg, Response.content response <> "" ->
                           Response.body response = Undecodable msg ->
                           e = Response.text response)
           /\ (forall s, Response.content response <> "" ->
                         Response.body response = Decoded (PStr s) ->
                         e = s)
           /\ (forall v s, Response.content response <> "" ->
                           Response.body response = Decoded v ->
                           In s (strings_of v) -> plain s = true ->
                           is_substring s e = true)
           /\ (ascii_only (APIResponse.data result) = true ->
               e = py_str (APIResponse.data result))))
  /\ (decodes_or_json_error response = false ->
      exists msg,
        Response.content response <> ""
        /\ Response.body response = Undecodable msg
        /\ _process_response response request_info
           = Raise (Exn (Response.json_raises response) msg)
        /\ forall network v self path data params t base_url,
             _get_base_url self = Ok base_url ->
             network t (wire_request v self (full_url base_url path) data params)
               = Ok response ->
             fst (call network v self path data params t)
             = Ret {| APIResponse.status_code := 500;
                      APIResponse.success := false;
                      APIResponse.data := PNone;
                      APIResponse.error := Some msg;
                      APIResponse.headers := [];
                      APIResponse.request_info :=
                        request_info_of v (full_url base_url path) data params |}).
Proof.
  unfold decodes_or_json_error. split.
  - intros Hd. unfold _process_response, Response.json.
    destruct (String.eqb_spec (Response.content response) "") as [Hc | Hc];
      simpl in Hd |- *.
    + eexists. split; [reflexivity |]. simpl.
      destruct (Z.ltb_spec (Response.status_code response) 400) as [Hs | Hs];
        repeat split; try congruence; try lia; try discriminate.
      intros _. eexists. repeat split; try congruence.
    + destruct (Response.body response) as [v | msg] eqn:Hb; simpl.
      * eexists. split; [reflexivity |]. simpl.
        destruct (Z.ltb_spec (Response.status_code response) 400) as [Hs | Hs];
          repeat split; try congruence; try lia; try discriminate.
        intros _. eexists. split; [reflexivity |].
        repeat split; try congruence.
        -- intros s _ [= ->]. reflexivity.
        -- intros v' s _ [= <-] Hin Hp. now apply py_str_contains.
      * destruct (Response.json_raises response); try discriminate. simpl.
        eexists. split; [reflexivity |]. simpl.
        destruct (Z.ltb_spec (Response.status_code response) 400) as [Hs | Hs];
          repeat split; try congruence; try lia; try discriminate.
        intros _. eexists. split; [reflexivity |].
        repeat split; try congruence; try discriminate.
  - intros Hd.
    destruct (String.eqb_spec (Response.content response) "") as [Hc | Hc];
      [discriminate |]. simpl in Hd.
    destruct (Response.body response) as [v | msg] eqn:Hb; [discriminate |].
    exists msg. split; [exact Hc |]. split; [reflexivity |].
    assert (forall info, _process_response response info
                         = Raise (Exn (Response.json_raises response) msg)) as Hraise.
    { intros info. unfold _process_response, Response.json. rewrite Hb.
      destruct (String.eqb_spec (Response.content response) ""); [contradiction |].
      simpl. destruct (Response.json_raises response); try reflexivity.
      discriminate. }
    split; [apply Hraise |].
    intros network v self path data params t base_url Hbase Hnet.
    rewrite (call_unfold network v self path data params t base_url Hbase).
    cbv zeta. rewrite Hnet, Hraise. reflexivity.
Qed.

(** C2, as stated, fails on a body that is nested so deep that decoding it
    raises a [RecursionError], which [except json.JSONDecodeError] does not
    catch: the response has status 200 and a body, and the result of the
    GET that received it has status 500, [success] false and no data,
    where the claim has [success] true and the raw text as data. *)
Lemma deep_body_is_not_normalized :
  Response.status_code nested_response = 200
  /\ String.eqb (Response.content nested_response) "" = false
  /\ _process_response nested_response []
     = Raise (Exn RecursionError
                "maximum recursion depth exceeded while decoding a JSON array from a unicode string")
  /\ fst (call (health_network (Ok nested_response)) GET health_client
            "/v3/health" PNone PNone [])
     = Ret {| APIResponse.status_code := 500;
              APIResponse.success := false;
              APIResponse.data := PNone;
              APIResponse.error :=
                Some "maximum recursion depth exceeded while decoding a JSON array from a unicode string";
              APIResponse.headers := [];
              APIResponse.request_info :=
                [("method", PStr "GET");
                 ("url", PStr "http://localhost:7272/v3/health");
                 ("params", PNone)] |}.
Proof. repeat split; vm_compute; reflexivity. Qed.

(** C1. Whatever the verb, when [requests] raises on the request that the
    method issues (a connection error, a timeout, a TLS failure, or any
    other exception), the method returns: its result has status code 500,
    [success] false, [error] equal to [str(e)], no data and no headers. *)
Theorem verbs_catch_transport_failures
    (network : trace -> Request -> result Response.t) (v : verb)
    (self : APIClient) (path : string) (data params : pyval) (t : trace)
    (base_url : string) (e : exn) :
  _get_base_url self = Ok base_url ->
  network t (wire_request v self (full_url base_url path) data params) = Raise e ->
  exists result,
    call network v self path data params t
      = (Ret result,
         (t ++ [HttpRequest (wire_request v self (full_url base_url path) data params)])%list)
    /\ APIResponse.status_code result = 500
    /\ APIResponse.success result = false
    /\ APIResponse.error result = Some (exn_str e)
    /\ APIResponse.data result = PNone
    /\ APIResponse.headers result = []
    /\ APIResponse.request_info result
       = request_info_of v (full_url base_url path) data params.
Proof.
  intros Hb Hnet.
  rewrite (call_unfold network v self path data params t base_url Hb).
  cbv zeta. rewrite Hnet.
  eexists. split; [reflexivity |]. repeat split.
Qed.

(** A POST to a server that refuses the connection. *)
Lemma verbs_catch_transport_failures_witness :
  exists result,
    call (serve "http://localhost:7272/openapi.json"
            (spec_response health_text) (Raise connection_refused))
      POST health_client "v3/health" (PDict [("x", PInt 1)]) PNone []
    = (Ret result,
       [HttpRequest (wire_request POST health_client "http://localhost:7272/v3/health"
                       (PDict [("x", PInt 1)]) PNone)])
    /\ APIResponse.status_code result = 500
    /\ APIResponse.success result = false
    /\ APIResponse.error result = Some "Connection refused"
    /\ APIResponse.data result = PNone
    /\ APIResponse.headers result = []
    /\ APIResponse.request_info result
       = [("method", PStr "POST"); ("url", PStr "http://localhost:7272/v3/health");
          ("params", PNone); ("data", PDict [("x", PInt 1)])].
Proof.
  apply (verbs_catch_transport_failures
           (serve "http://localhost:7272/openapi.json"
              (spec_response health_text) (Raise connection_refused))
           POST health_client "v3/health" (PDict [("x", PInt 1)]) PNone []
           "http://localhost:7272" connection_refused); reflexivity.
Defined.

(** Once the base URL is resolved, a verb method returns a result, whatever
    the network does. *)
Lemma call_returns network v self path data params t base_url :
  _get_base_url self = Ok base_url ->
  exists result,
    call network v self path data params t
    = (Ret result,
       (t ++ [HttpRequest (wire_request v self (full_url base_url path) data params)])%list)
    /\ forall response,
         network t (wire_request v self (full_url base_url path) data params)
           = Ok response ->
         _process_response response
           (request_info_of v (full_url base_url path) data params) = Ok result
         \/ exists e,
              _process_response response
                (request_info_of v (full_url base_url path) data params) = Raise e
              /\ result
                 = failure_response e
                     (request_info_of v (full_url base_url path) data params).
Proof.
  intros Hb. rewrite (call_unfold network v self path data params t base_url Hb).
  cbv zeta.
  destruct (network t (wire_request v self (full_url base_url path) data params))
    as [response | e].
  - destruct (_process_response response
                (request_info_of v (full_url base_url path) data params))
      as [r1 | e1] eqn:H1.
    + exists r1. split; [reflexivity |].
      intros response' [= <-]. left. exact H1.
    + eexists. split; [reflexivity |].
      intros response' [= <-]. right. eauto.
  - eexists. split; [reflexivity |]. discriminate.
Qed.

(** ** Empty mappings *)

Lemma same_call network v self path d1 p1 d2 p2 t :
  (forall url, wire_request v self url d1 p1 = wire_request v self url d2 p2) ->
  same_outcome (fst (call network v self path d1 p1 t))
               (fst (call network v self path d2 p2 t))
  /\ snd (call network v self path d1 p1 t) = snd (call network v self path d2 p2 t).
Proof.
  intros Hw. destruct (_get_base_url self) as [base_url | e] eqn:Hb.
  - rewrite !(call_unfold network v self path _ _ t base_url Hb). cbv zeta.
    rewrite (Hw (full_url base_url path)).
    destruct (network t (wire_request v self (full_url base_url path) d2 p2))
      as [response | e].
    + pose proof (process_response_descriptor response
                    (request_info_of v (full_url base_url path) d1 p1)
                    (request_info_of v (full_url base_url path) d2 p2)) as Hs.
      destruct (_process_response response
                  (request_info_of v (full_url base_url path) d1 p1)) as [r1 | e1];
        destruct (_process_response response
                    (request_info_of v (full_url base_url path) d2 p2)) as [r2 | e2];
        try contradiction; simpl.
      * auto.
      * subst e2. repeat split.
    + simpl. repeat split.
  - rewrite !(call_base_url_raises network v self path _ _ t e Hb). simpl. auto.
Qed.

(** C8. An empty mapping given as body or as query parameters is handled as
    an absent argument: [_prepare_request_kwargs] attaches [params] and
    [json] only for a non-empty mapping, each verb method hands the same
    request to [requests] and comes back with the same status, data, error
    and headers for an empty mapping as for [None], and so no request ever
    carries an empty JSON object as body or an empty mapping as query. *)
Theorem empty_mapping_is_absent
    (network : trace -> Request -> result Response.t) (v : verb)
    (self : APIClient) (path : string) (data params : pyval) (t : trace) :
  (forall d, kw_params (_prepare_request_kwargs self (PDict d) data)
             = match d with [] => None | _ :: _ => Some (PDict d) end)
  /\ (forall d, kw_json (_prepare_request_kwargs self params (PDict d))
                = match d with [] => None | _ :: _ => Some (PDict d) end)
  /\ _prepare_request_kwargs self (PDict []) data = _prepare_request_kwargs self PNone data
  /\ _prepare_request_kwargs self params (PDict []) = _prepare_request_kwargs self params PNone
  /\ same_outcome (fst (call network v self path data (PDict []) t))
                  (fst (call network v self path data PNone t))
  /\ snd (call network v self path data (PDict []) t)
     = snd (call network v self path data PNone t)
  /\ same_outcome (fst (call network v self path (PDict []) params t))
                  (fst (call network v self path PNone params t))
  /\ snd (call network v self path (PDict []) params t)
     = snd (call network v self path PNone params t)
  /\ (forall r, In (HttpRequest r) (snd (call network v self path data params [])) ->
                kw_json (req_kwargs r) <> Some (PDict [])
                /\ kw_params (req_kwargs r) <> Some (PDict [])).
Proof.
  split; [intros []; reflexivity |].
  split; [intros []; reflexivity |].
  split; [reflexivity |].
  split; [reflexivity |].
  split; [apply same_call; intros url; destruct v; reflexivity |].
  split; [apply same_call; intros url; destruct v; reflexivity |].
  split; [apply same_call; intros url; destruct v; reflexivity |].
  split; [apply same_call; intros url; destruct v; reflexivity |].
  intros r Hin.
  assert (exists url, r = wire_request v self url data params) as [url ->].
  { destruct (_get_base_url self) as [base_url | e] eqn:Hb.
    - rewrite (call_unfold network v self path data params [] base_url Hb) in Hin.
      cbv zeta in Hin. exists (full_url base_url path).
      destruct (network [] (wire_request v self (full_url base_url path) data params));
        [destruct (_process_response _ _) |];
        simpl in Hin; destruct Hin as [[= <-] | []]; reflexivity.
    - rewrite (call_base_url_raises network v self path data params [] e Hb) in Hin.
      destruct Hin. }
  unfold wire_request, _prepare_request_kwargs. simpl. split.
  - destruct (has_body v); simpl; [| discriminate].
    destruct (py_truthy data) eqn:Ht; [| discriminate].
    intros [= ->]. discriminate.
  - destruct (py_truthy params) eqn:Ht; [| discriminate].
    intros [= ->]. discriminate.
Qed.

(** A POST with an empty body and empty parameters: nothing but the
    headers, the timeout and the TLS flag goes to [requests]. *)
Example empty_mapping_post :
  req_kwargs (wire_request POST health_client "http://localhost:7272/v3/health"
                (PDict []) (PDict []))
  = {| kw_timeout := 30; kw_verify := true;
       kw_headers := Some [("Content-Type", "application/json")];
       kw_params := None; kw_json := None |}.
Proof. reflexivity. Qed.

(** ** Indexing the document *)

Lemma is_supported_upper (method : string) :
  is_supported method = true -> In (upper method) upper_verbs.
Proof.
  unfold is_supported, supported_verbs, upper_verbs. simpl.
  rewrite <- (upper_lower method).
  repeat rewrite orb_true_iff. rewrite !String.eqb_eq.
  intros [H | [H | [H | [H | [H | H]]]]]; try discriminate; rewrite H; simpl; auto 6.
Qed.

Lemma parse_methods_keys (methods : dict pyval) :
  forall inner0,
    valid_operations methods = true ->
    exists inner,
      parse_methods methods inner0 = Ok inner
      /\ forall M, In M (keys inner)
                   <-> In M (keys inner0)
                       \/ exists m, In m (keys methods)
                                    /\ is_supported m = true /\ M = upper m.
Proof.
  induction methods as [| [m details] rest IH]; intros inner0 Hv.
  - exists inner0. split; [reflexivity |].
    intros M. split; [auto | intros [H | [m [[] _]]]; exact H].
  - simpl in Hv. apply andb_true_iff in Hv. destruct Hv as [Hm Hrest].
    simpl. destruct (is_supported m) eqn:Hs; simpl in *.
    + destruct details as [| | | | | op]; try discriminate. simpl.
      match goal with
      | |- context [parse_methods rest ?acc] =>
          destruct (IH acc Hrest) as [inner [Hp Hk]]
      end.
      exists inner. split; [exact Hp |].
      intros M. rewrite Hk, keys_dict_set. split.
      * intros [[-> | H] | [m' [Hin [Hs' ->]]]].
        -- right. exists m. auto.
        -- now left.
        -- right. exists m'. auto.
      * intros [H | [m' [[<- | Hin] [Hs' ->]]]].
        -- left. now right.
        -- left. now left.
        -- right. exists m'. auto.
    + destruct (IH inner0 Hrest) as [inner [Hp Hk]].
      exists inner. split; [exact Hp |].
      intros M. rewrite Hk. split.
      * intros [H | [m' [Hin [Hs' ->]]]]; [now left |].
        right. exists m'. auto.
      * intros [H | [m' [[<- | Hin] [Hs' ->]]]]; [now left | congruence |].
        right. exists m'. auto.
Qed.

Lemma parse_methods_unsupported (methods : dict pyval) (inner0 : dict pyval) :
  (forall m, In m (keys methods) -> is_supported m = false) ->
  parse_methods methods inner0 = Ok inner0.
Proof.
  induction methods as [| [m details] rest IH]; intros H; simpl.
  - reflexivity.
  - rewrite (H m (or_introl eq_refl)). simpl.
    apply IH. intros m' Hin. apply H. now right.
Qed.

Lemma parse_paths_index (paths : dict pyval) :
  forall acc,
    NoDup (keys paths) ->
    (forall p, In p (keys paths) -> ~ In p (keys acc)) ->
    forallb (fun kv => match snd kv with
                       | PDict methods => valid_operations methods
                       | _ => false
                       end) paths = true ->
    exists index,
      parse_paths paths acc = Ok index
      /\ keys index = (keys acc ++ keys paths)%list
      /\ (forall p, ~ In p (keys paths) -> dict_get p index = dict_get p acc)
      /\ (forall path v, In (path, v) paths ->
            exists methods inner,
              v = PDict methods
              /\ parse_methods methods [] = Ok inner
              /\ dict_get path index = Some inner).
Proof.
  induction paths as [| [path v] rest IH]; intros acc Hnd Hfresh Hv.
  - exists acc. simpl. rewrite app_nil_r. repeat split; auto. intros ? ? [].
  - simpl in Hv. apply andb_true_iff in Hv. destruct Hv as [Hm Hrest].
    destruct v as [| | | | | methods]; try discriminate.
    simpl in Hnd. inversion Hnd as [| ? ? Hnotin Hnd']; subst.
    assert (~ In path (keys acc)) as Hpa by (apply Hfresh; now left).
    destruct (parse_methods_keys methods [] Hm) as [inner [Hp _]].
    simpl. rewrite Hp. simpl.
    rewrite (dict_set_fresh path [] acc Hpa).
    match goal with
    | |- context [parse_paths rest ?x] =>
        replace x with (acc ++ [(path, inner)])%list
          by (symmetry; apply dict_set_last; exact Hpa)
    end.
    destruct (IH (acc ++ [(path, inner)])%list Hnd') as [index [Hi [Hk [Hother Hin]]]].
    { intros p Hp' Hacc. unfold keys in Hacc. rewrite map_app in Hacc.
      apply in_app_or in Hacc. destruct Hacc as [Hacc | [<- | []]].
      - apply (Hfresh p); [now right | exact Hacc].
      - contradiction. }
    { exact Hrest. }
    exists index. split; [exact Hi |]. split; [| split].
    + rewrite Hk. unfold keys. rewrite map_app. simpl. now rewrite <- app_assoc.
    + intros p Hnp. rewrite Hother by (intros H; apply Hnp; now right).
      assert (p <> path) as Hne by (intros ->; apply Hnp; now left).
      rewrite <- (dict_set_fresh path inner acc Hpa).
      now apply dict_get_set_other.
    + intros path' v' [[= <- <-] | Hin'].
      * exists methods, inner. split; [reflexivity |]. split; [exact Hp |].
        rewrite Hother by exact Hnotin.
        now apply dict_get_app_last.
      * now apply Hin.
Qed.

Lemma forallb_same {A : Type} (f g : A -> bool) (l : list A) :
  (forall x, f x = g x) -> forallb f l = forallb g l.
Proof.
  intros H. induction l as [| x l IH]; simpl; [reflexivity | now rewrite H, IH].
Qed.

Lemma paths_of_operations_valid (paths : dict pyval) :
  paths_of_operations paths = valid_paths paths.
Proof.
  unfold paths_of_operations, valid_paths, valid_operations. f_equal.
  apply forallb_same. intros [path [| b | z | s | l | methods]]; try reflexivity.
  apply forallb_same. intros [m d]. unfold is_supported, supported_verbs.
  now rewrite lower_lowercase.
Qed.

Lemma parse_endpoints_index (document paths : dict pyval) :
  dict_get "paths" document = Some (PDict paths) ->
  valid_paths paths = true ->
  exists index,
    _parse_endpoints (PDict document) = Ok index
    /\ keys index = keys paths
    /\ forall path methods,
         In (path, PDict methods) paths ->
         exists inner,
           dict_get path index = Some inner
           /\ (forall M, In M (keys inner)
                         <-> exists m, In m (keys methods)
                                       /\ is_supported m = true /\ M = upper m)
           /\ (forall M, In M (keys inner) -> In M upper_verbs)
           /\ ((forall m, In m (keys methods) -> is_supported m = false) ->
               inner = []).
Proof.
  intros Hpaths Hvalid.
  unfold valid_paths in Hvalid. apply andb_true_iff in Hvalid.
  destruct Hvalid as [Hd Hv]. apply distinct_NoDup in Hd.
  destruct (parse_paths_index paths [] Hd (fun _ _ H => H) Hv)
    as [index [Hi [Hk [_ Hin]]]].
  exists index. split; [| split].
  - unfold _parse_endpoints. simpl. unfold dict_mem. rewrite Hpaths. simpl. exact Hi.
  - exact Hk.
  - intros path methods Hpm.
    destruct (Hin path (PDict methods) Hpm) as [methods' [inner [[= <-] [Hp Hg]]]].
    exists inner. split; [exact Hg |].
    assert (valid_operations methods = true) as Hvm.
    { rewrite forallb_forall in Hv. apply (Hv (path, PDict methods) Hpm). }
    destruct (parse_methods_keys methods [] Hvm) as [inner' [Hp' Hk']].
    rewrite Hp in Hp'. injection Hp' as <-.
    split; [| split].
    + intros M. rewrite Hk'. simpl. tauto.
    + intros M HM. apply Hk' in HM. destruct HM as [[] | [m [_ [Hs ->]]]].
      now apply is_supported_upper.
    + intros Hnone. rewrite (parse_methods_unsupported methods [] Hnone) in Hp.
      now injection Hp as <-.
Qed.

(** C3. For a document whose [paths] is a mapping from paths to mappings
    from methods to operation objects, [_parse_endpoints] returns an index
    whose keys are the paths of the document, in the same order; under each
    path its keys are the upper-cased forms of exactly the methods whose
    lower-cased form is one of get, post, put, delete, patch, each of them
    one of GET, POST, PUT, DELETE, PATCH; and a path none of whose methods
    is one of the five is in the index with an empty mapping. *)
Theorem parse_endpoints_exact (document paths : dict pyval) :
  dict_get "paths" document = Some (PDict paths) ->
  paths_of_operations paths = true ->
  exists index,
    _parse_endpoints (PDict document) = Ok index
    /\ keys index = keys paths
    /\ forall path methods,
         In (path, PDict methods) paths ->
         exists inner,
           dict_get path index = Some inner
           /\ (forall M,
                 In M (keys inner)
                 <-> exists m,
                       In m (keys methods)
                       /\ In (lowercase m) ["get"; "post"; "put"; "delete"; "patch"]
                       /\ M = uppercase m)
           /\ (forall M, In M (keys inner) ->
                         In M ["GET"; "POST"; "PUT"; "DELETE"; "PATCH"])
           /\ ((forall m, In m (keys methods) ->
                          ~ In (lowercase m) ["get"; "post"; "put"; "delete"; "patch"]) ->
               inner = []).
Proof.
  intros Hpaths Hvalid. rewrite paths_of_operations_valid in Hvalid.
  destruct (parse_endpoints_index document paths Hpaths Hvalid)
    as [index [Hi [Hk Hin]]].
  exists index. split; [exact Hi |]. split; [exact Hk |].
  intros path methods Hpm.
  destruct (Hin path methods Hpm) as [inner [Hg [Hiff [Hup Hnone]]]].
  exists inner. split; [exact Hg |]. split; [| split].
  - intros M. rewrite Hiff. split; intros [m [Hm [Hs ->]]]; exists m.
    + apply is_supported_lowercase in Hs. now rewrite upper_uppercase.
    + apply is_supported_lowercase in Hs. now rewrite upper_uppercase.
  - exact Hup.
  - intros Hno. apply Hnone. intros m Hm.
    destruct (is_supported m) eqn:Hs; [| reflexivity].
    exfalso. apply (Hno m Hm). now apply is_supported_lowercase.
Qed.

(** On a document with mixed-case methods, methods that are not supported,
    and a path that has no supported method. *)
Lemma parse_endpoints_exact_witness :
  exists index,
    _parse_endpoints (PDict pets_document) = Ok index
    /\ keys index = ["/pets"; "/ping"]
    /\ forall path methods,
         In (path, PDict methods) pets_paths ->
         exists inner,
           dict_get path index = Some inner
           /\ (forall M,
                 In M (keys inner)
                 <-> exists m,
                       In m (keys methods)
                       /\ In (lowercase m) ["get"; "post"; "put"; "delete"; "patch"]
                       /\ M = uppercase m)
           /\ (forall M, In M (keys inner) ->
                         In M ["GET"; "POST"; "PUT"; "DELETE"; "PATCH"])
           /\ ((forall m, In m (keys methods) ->
                          ~ In (lowercase m) ["get"; "post"; "put"; "delete"; "patch"]) ->
               inner = []).
Proof.
  apply (parse_endpoints_exact pets_document pets_paths); reflexivity.
Defined.

(** The index of the sample document: OPTIONS and the path-level
    [parameters] are dropped, [Post] is stored as POST, and [/ping] keeps
    an empty mapping. *)
Example parse_endpoints_pets :
  _parse_endpoints (PDict pets_document)
  = Ok [("/pets",
         [("GET", PDict [("summary", PStr "List pets"); ("description", PStr "");
                         ("parameters", PList []); ("requestBody", PDict []);
                         ("responses", PDict [])]);
          ("POST", PDict [("summary", PStr ""); ("description", PStr "");
                          ("parameters", PList []); ("requestBody", PDict []);
                          ("responses", PDict [])])]);
        ("/ping", [])].
Proof. reflexivity. Qed.

(** ** Resolving the base URL *)

Lemma startswith_drop_last (s p : string) :
  startswith (drop_last s) p = true -> startswith s p = true.
Proof.
  revert p. induction s as [| c s IH]; intros p; simpl.
  - auto.
  - destruct p as [| a p]; [reflexivity |].
    destruct s as [| c' s']; [discriminate |].
    simpl in *. rewrite !andb_true_iff. intros [Hc H]. split; [exact Hc |].
    now apply IH.
Qed.

Lemma endswith_slash_append (p s : string) :
  endswith_slash (p ++ s) = if String.eqb s "" then endswith_slash p else endswith_slash s.
Proof.
  induction p as [| c p IH]; simpl.
  - destruct s; reflexivity.
  - destruct (p ++ s)%string eqn:E.
    + destruct p; [| discriminate]. simpl in E. subst s. reflexivity.
    + rewrite IH. destruct (String.eqb_spec s "") as [-> | Hs]; [| reflexivity].
      rewrite append_empty in E. subst p. reflexivity.
Qed.

Lemma drop_last_empty (s : string) :
  endswith_slash s = true -> drop_last s = "" -> s = "/".
Proof.
  destruct s as [| c [| c' s']]; simpl; try discriminate.
  intros H _. apply Ascii.eqb_eq in H. now subst c.
Qed.

(** The document's first server is used when [servers] is a non-empty
    sequence whose first element has a [url]. *)
Lemma get_base_url_server (self : APIClient) document first more u :
  spec_dict self = PDict document ->
  dict_get "servers" document = Some (PList (PDict first :: more)) ->
  dict_get "url" first = Some (PStr u) ->
  _get_base_url self = Ok (normalize_base_url u).
Proof.
  intros Hs Hservers Hurl. unfold _get_base_url. rewrite Hs. simpl.
  unfold dict_mem. rewrite Hservers. simpl. unfold dict_mem. now rewrite Hurl.
Qed.

(** The configured base URL is used when there is no [servers], when it is
    empty, or when its first element has no [url]. *)
Lemma get_base_url_fallback (self : APIClient) document :
  spec_dict self = PDict document ->
  (dict_get "servers" document = None
   \/ dict_get "servers" document = Some (PList [])
   \/ exists first more,
        dict_get "servers" document = Some (PList (PDict first :: more))
        /\ dict_get "url" first = None) ->
  _get_base_url self
    = Ok (normalize_base_url (APIClientConfig.api_base_url (config self))).
Proof.
  intros Hs H. unfold _get_base_url. rewrite Hs. simpl. unfold dict_mem.
  destruct H as [H | [H | [first [more [H Hurl]]]]]; rewrite H; simpl;
    try reflexivity.
  unfold dict_mem. now rewrite Hurl.
Qed.

(** A base URL with a scheme and no trailing slash is left as it is. *)
Lemma normalize_base_url_fixed (s : string) :
  has_scheme s = true -> endswith_slash s = false -> normalize_base_url s = s.
Proof.
  unfold normalize_base_url, has_scheme. intros Hs He. now rewrite He, Hs.
Qed.

(** A base URL without a scheme comes out with [https://] in front. *)
Lemma normalize_base_url_scheme (s : string) :
  has_scheme s = false -> startswith (normalize_base_url s) "https://" = true.
Proof.
  unfold normalize_base_url, has_scheme. intros Hs.
  destruct (endswith_slash s).
  - destruct (startswith (drop_last s) "http://" || startswith (drop_last s) "https://")
      eqn:E; [| reflexivity].
    apply orb_true_iff in E. apply orb_false_iff in Hs. destruct Hs as [H1 H2].
    destruct E as [E | E]; apply startswith_drop_last in E; congruence.
  - now rewrite Hs.
Qed.

(** Only one slash is taken off, and nothing is checked after the scheme is
    put in front: the result still ends with a slash exactly for the empty
    string, for [/], and for a string that ends with two slashes. *)
Lemma normalize_base_url_trailing_slash (s : string) :
  endswith_slash (normalize_base_url s)
  = String.eqb s "" || String.eqb s "/"
    || (endswith_slash s && endswith_slash (drop_last s)).
Proof.
  unfold normalize_base_url.
  destruct (endswith_slash s) eqn:He.
  - assert (String.eqb s "" = false) as E0 by (destruct s; [discriminate | reflexivity]).
    rewrite E0. cbn [orb andb].
    destruct (startswith (drop_last s) "http://" || startswith (drop_last s) "https://")
      eqn:Hs; cbn [negb].
    + destruct (String.eqb_spec s "/") as [-> | Hne]; [discriminate | reflexivity].
    + rewrite endswith_slash_append.
      destruct (String.eqb_spec (drop_last s) "") as [Hd | Hd].
      * rewrite (drop_last_empty s He Hd). reflexivity.
      * destruct (String.eqb_spec s "/") as [-> | Hne]; [now elim Hd | reflexivity].
  - rewrite andb_false_l, orb_false_r.
    destruct (startswith s "http://" || startswith s "https://") eqn:Hs; cbn [negb].
    + rewrite He. destruct s as [| c s']; [discriminate |].
      destruct (String.eqb_spec (String c s') "/") as [E | E]; [| reflexivity].
      rewrite E in He. discriminate.
    + rewrite endswith_slash_append.
      destruct (String.eqb_spec s "") as [-> | Hne]; [reflexivity |].
      rewrite He. destruct (String.eqb_spec s "/") as [-> | Hne']; [discriminate | reflexivity].
Qed.

(** C4. What [_get_base_url] returns on a configured base URL that ends
    with two slashes, on a server URL [/], and on an empty base URL: the
    [https://] prefix is there, and so is a trailing slash.  The comment in
    the source asks for a base URL that does not end with a slash. *)
Theorem get_base_url_keeps_a_slash :
  _get_base_url (client_with "api.example.com//" [])
    = Ok "https://api.example.com/"
  /\ _get_base_url (client_with "http://localhost:7272"
                      [("servers", PList [PDict [("url", PStr "/")]])])
     = Ok "https://"
  /\ _get_base_url (client_with "" []) = Ok "https://"
  /\ _get_base_url (client_with "http://localhost:7272/"
                      [("servers", PList [PDict [("url", PStr "api.example.com/v1/")]])])
     = Ok "https://api.example.com/v1"
  /\ _get_base_url (client_with "http://localhost:7272" [])
     = Ok "http://localhost:7272".
Proof. repeat split. Qed.

(** ** Fetching the document *)

Lemma raise_for_status_cases (r : Response.t) :
  if error_status (Response.status_code r)
  then exists msg, Response.raise_for_status r = Raise (Exn HTTPError msg)
  else Response.raise_for_status r = Ok tt.
Proof.
  unfold error_status, Response.raise_for_status.
  destruct (Z.leb_spec 400 (Response.status_code r)),
           (Z.ltb_spec (Response.status_code r) 500),
           (Z.leb_spec 500 (Response.status_code r)),
           (Z.ltb_spec (Response.status_code r) 600);
    try lia; cbn [andb negb]; try reflexivity;
    destruct (str_int (Response.status_code r)); simpl; eauto.
Qed.

(** What the fetch comes to, case by case. *)
Lemma fetch_openapi_spec_unfold network config t :
  _fetch_openapi_spec network config t =
    (match network t (spec_request config) with
     | Raise e => Exc (fetch_error (exn_str e))
     | Ok response =>
         match Response.raise_for_status response with
         | Raise e => Exc (fetch_error (exn_str e))
         | Ok _ =>
             match Response.body response with
             | Decoded spec => Ret spec
             | Undecodable msg => Exc (fetch_error msg)
             end
         end
     end,
     (t ++ [HttpRequest (spec_request config)])%list).
Proof.
  unfold _fetch_openapi_spec, try_catch, bind, requests_call, spec_request.
  destruct (network t _) as [response | e]; [| reflexivity].
  destruct (Response.raise_for_status response) as [[] | e]; simpl; [| reflexivity].
  unfold Response.json. destruct (Response.body response); reflexivity.
Qed.

Lemma valid_document_parse (spec : pyval) :
  valid_document spec = true -> exists index, _parse_endpoints spec = Ok index.
Proof.
  destruct spec as [| | | | | document]; try discriminate. simpl.
  intros H. apply andb_true_iff in H. destruct H as [Hp _].
  destruct (dict_get "paths" document) as [paths |] eqn:E.
  - destruct paths as [| | | | | paths]; try discriminate.
    unfold valid_paths in Hp. apply andb_true_iff in Hp. destruct Hp as [Hd Hv].
    apply distinct_NoDup in Hd.
    destruct (parse_paths_index paths [] Hd (fun _ _ H => H) Hv) as [index [Hi _]].
    exists index. unfold _parse_endpoints. simpl. unfold dict_mem. rewrite E. exact Hi.
  - exists []. apply parse_endpoints_without_paths. now apply dict_get_None.
Qed.

Lemma valid_document_base_url (self : APIClient) :
  valid_document (spec_dict self) = true -> exists url, _get_base_url self = Ok url.
Proof.
  destruct (spec_dict self) as [| | | | | document] eqn:Hs; try discriminate. simpl.
  intros H. apply andb_true_iff in H. destruct H as [_ H].
  destruct (dict_get "servers" document) as [servers |] eqn:E.
  - destruct servers as [| | | | [| first more] |]; try discriminate.
    + eexists. apply (get_base_url_fallback self document Hs). auto.
    + destruct first as [| | | | | first]; try discriminate. simpl in H.
      destruct (dict_get "url" first) as [u |] eqn:Eu.
      * destruct u as [| | | u | |]; try discriminate.
        eexists. apply (get_base_url_server self document first more u Hs E Eu).
      * eexists. apply (get_base_url_fallback self document Hs).
        right. right. eauto.
  - eexists. apply (get_base_url_fallback self document Hs). auto.
Qed.

(** C5, as the code has it.  [_fetch_openapi_spec] issues one GET and
    raises exactly when that GET raises, or answers with a status in
    400..599, or with a body that does not decode; what it raises is a
    [ValueError] whose message ends with the text of the cause.  The
    exception leaves [APIClient(config)] as it is, so no client is built.
    Of the other operations that are not verbs, [_parse_endpoints] and
    [_get_base_url] return on every valid document, and
    [get_endpoint_details] raises on a lookup that misses. *)
Theorem fetch_openapi_spec_raises
    (network : trace -> Request -> result Response.t)
    (config : APIClientConfig.t) (t : trace) :
  ((exists e, fst (_fetch_openapi_spec network config t) = Exc e)
   <-> fetch_fails network config t)
  /\ (forall e, fst (_fetch_openapi_spec network config t) = Exc e ->
        (exists cause, network t (spec_request config) = Raise cause
                       /\ e = fetch_error (exn_str cause))
        \/ (exists response msg,
              network t (spec_request config) = Ok response
              /\ Response.raise_for_status response = Raise (Exn HTTPError msg)
              /\ e = fetch_error msg)
        \/ (exists response msg,
              network t (spec_request config) = Ok response
              /\ Response.body response = Undecodable msg
              /\ e = fetch_error msg))
  /\ snd (_fetch_openapi_spec network config t)
     = (t ++ [HttpRequest (spec_request config)])%list
  /\ (forall e, fst (_fetch_openapi_spec network config t) = Exc e ->
        APIClient_init network config t
          = (Exc e, (t ++ [HttpRequest (spec_request config)])%list))
  /\ (forall self, valid_document (spec_dict self) = true ->
        (exists index, _parse_endpoints (spec_dict self) = Ok index)
        /\ (exists url, _get_base_url self = Ok url))
  /\ (forall self path method,
        ~ In path (keys (endpoints self)) ->
        get_endpoint_details self path method
          = Raise (Exn ValueError (path_not_found path))).
Proof.
  rewrite (fetch_openapi_spec_unfold network config t). unfold fetch_fails. simpl.
  split; [| split; [| split; [| split; [| split]]]].
  - destruct (network t (spec_request config)) as [response | e0].
    + pose proof (raise_for_status_cases response) as Hr.
      destruct (error_status (Response.status_code response)).
      * destruct Hr as [msg Hr]. rewrite Hr. split; eauto.
      * rewrite Hr. destruct (Response.body response) as [spec | msg].
        -- split; [intros [e He]; discriminate |].
           intros [H | [msg H]]; discriminate.
        -- split; eauto.
    + split; eauto.
  - intros e He. destruct (network t (spec_request config)) as [response | e0].
    + pose proof (raise_for_status_cases response) as Hr.
      destruct (error_status (Response.status_code response)).
      * destruct Hr as [msg Hr]. rewrite Hr in He. injection He as <-.
        right. left. exists response, msg. auto.
      * rewrite Hr in He. destruct (Response.body response) as [spec | msg] eqn:Hb;
          [discriminate |]. injection He as <-.
        right. right. exists response, msg. auto.
    + injection He as <-. left. eauto.
  - reflexivity.
  - intros e He. unfold APIClient_init, bind.
    rewrite (fetch_openapi_spec_unfold network config t). now rewrite He.
  - intros self Hv. split.
    + now apply valid_document_parse.
    + now apply valid_document_base_url.
  - intros self path method Hp.
    now apply get_endpoint_details_unknown_path.
Qed.

(** C5, as stated, fails: a response with status 300, which is outside
    200..299, and a body that decodes is accepted, and the client is
    built.  And the fetch is not the only operation besides the verbs that
    raises: a lookup that misses does. *)
Lemma fetch_accepts_status_300 :
  fetch_fails_non_2xx multiple_choices sample_config []
  /\ _fetch_openapi_spec multiple_choices sample_config []
     = (Ret health_spec, [HttpRequest (spec_request sample_config)])
  /\ APIClient_init multiple_choices sample_config []
     = (Ret health_client, [HttpRequest (spec_request sample_config)])
  /\ get_endpoint_details health_client "/unknown" "GET"
     = Raise (Exn ValueError "Path '/unknown' not found in API specification").
Proof.
  split; [left; reflexivity |]. repeat split.
Qed.

(** The three ways the fetch fails, on the sample configuration. *)
Example fetch_failures :
  _fetch_openapi_spec (fun _ _ => Raise connection_refused) sample_config []
    = (Exc (Exn ValueError "Failed to fetch OpenAPI spec: Connection refused"),
       [HttpRequest (spec_request sample_config)])
  /\ _fetch_openapi_spec
       (fun _ _ => Ok (http_response 404 "Not Found"
                         "http://localhost:7272/openapi.json" "{}"))
       sample_config []
     = (Exc (Exn ValueError
               "Failed to fetch OpenAPI spec: 404 Client Error: Not Found for url: http://localhost:7272/openapi.json"),
        [HttpRequest (spec_request sample_config)])
  /\ _fetch_openapi_spec
       (fun _ _ => Ok (http_response 200 "OK"
                         "http://localhost:7272/openapi.json" "<html>"))
       sample_config []
     = (Exc (Exn ValueError "Failed to fetch OpenAPI spec: Expecting value"),
        [HttpRequest (spec_request sample_config)]).
Proof. repeat split. Qed.

(** ** The command line *)



Lemma parse_json_arg_value json_loads arg t :
  malformed json_loads arg = false ->
  parse_json_arg json_loads arg t = (Ret (arg_value json_loads arg), t).
Proof.
  destruct arg as [s |]; simpl; [| reflexivity].
  destruct (String.eqb s ""); simpl; [reflexivity |].
  destruct (json_loads s) as [v | msg]; [reflexivity | discriminate].
Qed.

(** The construction issues the GET of the document and nothing else. *)
Lemma APIClient_init_trace network config t :
  snd (APIClient_init network config t)
  = (t ++ [HttpRequest (spec_request config)])%list.
Proof.
  unfold APIClient_init, bind. rewrite fetch_openapi_spec_unfold.
  destruct (network t (spec_request config)) as [response | e]; [| reflexivity].
  destruct (Response.raise_for_status response); [| reflexivity].
  destruct (Response.body response) as [spec | msg]; [| reflexivity].
  unfold lift. destruct (_parse_endpoints spec); reflexivity.
Qed.

Lemma APIClient_init_no_exit network config t :
  forall code, fst (APIClient_init network config t) <> Exit code.
Proof.
  intros code. unfold APIClient_init, bind. rewrite fetch_openapi_spec_unfold.
  destruct (network t (spec_request config)) as [response | e]; [| discriminate].
  destruct (Response.raise_for_status response); [| discriminate].
  destruct (Response.body response) as [spec | msg]; [| discriminate].
  unfold lift. destruct (_parse_endpoints spec); discriminate.
Qed.





(** The command line on a server that answers 503: the result is printed
    and the exit status is 0. *)
Example client_mode_remote_failure :
  client_process
    (health_network (Ok (http_response 503 "Service Unavailable"
                           "http://localhost:7272/v3/health"
                           ("{" ++ q "detail" ++ ":" ++ q "unavailable" ++ "}"))))
    json_decode (sample_args "get" "/v3/health" None None)
  = (0, [HttpRequest (spec_request sample_config);
         HttpRequest (wire_request GET health_client
                        "http://localhost:7272/v3/health" PNone PNone);
         Print "Status Code: 503";
         Print "Success: False";
         Print (String newline "Data:");
         PrintJson (PDict [("detail", PStr "unavailable")]);
         Print (String newline "Error: {'detail': 'unavailable'}")]).
Proof. reflexivity. Qed.

(** * Further properties of the client *)

(** ** Request headers *)

Lemma dict_update_get_other {V} (k : string) (other : dict V) :
  forall d, ~ In k (keys other) -> dict_get k (dict_update d other) = dict_get k d.
Proof.
  unfold dict_update. induction other as [| [k0 v0] other IH]; intros d Hn; simpl.
  - reflexivity.
  - rewrite IH by (intros H; apply Hn; now right).
    apply dict_get_set_other. intros ->. apply Hn. now left.
Qed.

Lemma dict_update_get_in {V} (k : string) (v : V) (other : dict V) :
  forall d, NoDup (keys other) -> In (k, v) other ->
            dict_get k (dict_update d other) = Some v.
Proof.
  induction other as [| [k0 v0] other IH]; intros d Hnd Hin; [destruct Hin |].
  simpl in Hnd. inversion Hnd as [| ? ? Hk0 Hnd']; subst.
  destruct Hin as [[= -> ->] | Hin].
  - change (dict_update d ((k, v) :: other)) with (dict_update (dict_set k v d) other).
    rewrite dict_update_get_other by exact Hk0. apply dict_get_set_same.
  - change (dict_update d ((k0, v0) :: other)) with (dict_update (dict_set k0 v0 d) other).
    now apply IH.
Qed.

Lemma keys_dict_update {V} (k : string) (other : dict V) :
  forall d, In k (keys (dict_update d other)) <-> In k (keys d) \/ In k (keys other).
Proof.
  unfold dict_update. induction other as [| [k0 v0] other IH]; intros d; simpl.
  - tauto.
  - rewrite IH, keys_dict_set. intuition.
Qed.

(** X1. The headers a verb method sends are [Content-Type:
    application/json] overridden and extended by the configured headers:
    every configured header is sent with its configured value, the content
    type is the default one unless the configuration names that very key,
    and nothing else is sent.  The timeout and the TLS flag are the
    configured ones. *)
Theorem request_headers_merge (self : APIClient) (params data : pyval) :
  NoDup (keys (APIClientConfig.headers (config self))) ->
  exists headers,
    kw_headers (_prepare_request_kwargs self params data) = Some headers
    /\ (forall k v, In (k, v) (APIClientConfig.headers (config self)) ->
                    dict_get k headers = Some v)
    /\ (~ In "Content-Type" (keys (APIClientConfig.headers (config self))) ->
        dict_get "Content-Type" headers = Some "application/json")
    /\ (forall k, In k (keys headers)
                  <-> k = "Content-Type"
                      \/ In k (keys (APIClientConfig.headers (config self))))
    /\ kw_timeout (_prepare_request_kwargs self params data)
       = APIClientConfig.timeout (config self)
    /\ kw_verify (_prepare_request_kwargs self params data)
       = APIClientConfig.verify_ssl (config self).
Proof.
  intros Hnd. eexists. split; [reflexivity |]. repeat split.
  - intros k v Hin. now apply dict_update_get_in.
  - intros Hn. now rewrite dict_update_get_other.
  - intros H. apply keys_dict_update in H. simpl in H. intuition.
  - intros H. apply keys_dict_update. simpl. intuition.
Qed.

(** With a token and a content type of its own in the configuration. *)
Lemma request_headers_merge_witness :
  exists headers,
    kw_headers (_prepare_request_kwargs token_client PNone PNone) = Some headers
    /\ (forall k v, In (k, v) [("Authorization", "Bearer t0k3n");
                               ("Content-Type", "text/plain")] ->
                    dict_get k headers = Some v)
    /\ (~ In "Content-Type" ["Authorization"; "Content-Type"] ->
        dict_get "Content-Type" headers = Some "application/json")
    /\ (forall k, In k (keys headers)
                  <-> k = "Content-Type" \/ In k ["Authorization"; "Content-Type"])
    /\ kw_timeout (_prepare_request_kwargs token_client PNone PNone) = 5
    /\ kw_verify (_prepare_request_kwargs token_client PNone PNone) = false.
Proof.
  apply (request_headers_merge token_client PNone PNone).
  apply distinct_NoDup. reflexivity.
Defined.

(** ** What a verb method does and does not do *)

(** X2. The leading slash of a path is optional: a verb method called with
    a path that does not start with a slash does exactly what it does with
    the slash put in front (the same request, the same result, the same
    request descriptor). *)
Theorem leading_slash_optional
    (network : trace -> Request -> result Response.t) (v : verb)
    (self : APIClient) (path : string) (data params : pyval) (t : trace) :
  startswith path "/" = false ->
  call network v self path data params t
  = call network v self ("/" ++ path) data params t.
Proof.
  intros Hs. destruct (_get_base_url self) as [base_url | e] eqn:Hb.
  - rewrite !(call_unfold network v self _ data params t base_url Hb).
    unfold full_url. rewrite Hs. reflexivity.
  - now rewrite !(call_base_url_raises network v self _ data params t e Hb).
Qed.

Lemma leading_slash_optional_witness :
  call (health_network (Raise connection_refused)) GET health_client
    "v3/health" PNone PNone []
  = call (health_network (Raise connection_refused)) GET health_client
      "/v3/health" PNone PNone [].
Proof.
  apply (leading_slash_optional (health_network (Raise connection_refused))
           GET health_client "v3/health" PNone PNone []).
  reflexivity.
Defined.

(** X3. On a valid document no verb method raises, whatever the network
    does: it issues one request, of its own method, and returns a
    result. *)
Theorem verbs_return_on_valid_document
    (network : trace -> Request -> result Response.t) (v : verb)
    (self : APIClient) (path : string) (data params : pyval) (t : trace) :
  valid_document (spec_dict self) = true ->
  exists result r,
    call network v self path data params t
    = (Ret result, (t ++ [HttpRequest r])%list)
    /\ req_method r = verb_name v
    /\ r = wire_request v self (req_url r) data params.
Proof.
  intros Hv. destruct (valid_document_base_url self Hv) as [base_url Hb].
  destruct (call_returns network v self path data params t base_url Hb)
    as [result [Hc _]].
  exists result, (wire_request v self (full_url base_url path) data params).
  split; [exact Hc |]. split; reflexivity.
Qed.

Lemma verbs_return_on_valid_document_witness :
  exists result r,
    call (health_network (Raise connection_refused)) DELETE health_client
      "/v3/health" PNone PNone []
    = (Ret result, [HttpRequest r])
    /\ req_method r = "DELETE"
    /\ r = wire_request DELETE health_client (req_url r) PNone PNone.
Proof.
  apply (verbs_return_on_valid_document
           (health_network (Raise connection_refused)) DELETE health_client
           "/v3/health" PNone PNone []).
  reflexivity.
Defined.

(** X4. The base URL is resolved outside the [try] block: when the first
    server of the document has a [url] that is not a string, every verb
    method raises an [AttributeError] instead of returning a result, and
    sends nothing. *)
Theorem verbs_raise_on_non_string_server_url
    (network : trace -> Request -> result Response.t) (v : verb)
    (self : APIClient) (path : string) (data params : pyval) (t : trace)
    (document first : dict pyval) (more : list pyval) (u : pyval) :
  spec_dict self = PDict document ->
  dict_get "servers" document = Some (PList (PDict first :: more)) ->
  dict_get "url" first = Some u ->
  (forall s, u <> PStr s) ->
  exists e,
    call network v self path data params t = (Exc e, t)
    /\ exn_kind e = AttributeError.
Proof.
  intros Hs Hservers Hurl Hu.
  assert (exists e, _get_base_url self = Raise e /\ exn_kind e = AttributeError)
    as [e [Hb Hk]].
  { unfold _get_base_url. rewrite Hs. simpl. unfold dict_mem. rewrite Hservers.
    simpl. unfold dict_mem. rewrite Hurl. simpl.
    destruct u as [| | | s | |]; try (eexists; split; reflexivity).
    now elim (Hu s). }
  exists e. split; [| exact Hk].
  now apply call_base_url_raises.
Qed.

Lemma verbs_raise_on_non_string_server_url_witness :
  exists e,
    call (health_network (Raise connection_refused)) GET
      (client_with "http://localhost:7272"
         [("servers", PList [PDict [("url", PInt 8080)]])])
      "/v3/health" PNone PNone []
    = (Exc e, [])
    /\ exn_kind e = AttributeError.
Proof.
  apply (verbs_raise_on_non_string_server_url
           (health_network (Raise connection_refused)) GET
           (client_with "http://localhost:7272"
              [("servers", PList [PDict [("url", PInt 8080)]])])
           "/v3/health" PNone PNone []
           [("servers", PList [PDict [("url", PInt 8080)]])]
           [("url", PInt 8080)] [] (PInt 8080));
    try reflexivity.
  intros s. discriminate.
Defined.

(** X5. A verb method never retries, prints or exits: a call leaves the
    trace as it was or adds one request to it, and it ends in a result or
    in an exception. *)
Theorem verbs_issue_at_most_one_request
    (network : trace -> Request -> result Response.t) (v : verb)
    (self : APIClient) (path : string) (data params : pyval) (t : trace) :
  (snd (call network v self path data params t) = t
   \/ exists r, snd (call network v self path data params t)
                = (t ++ [HttpRequest r])%list)
  /\ (forall code, fst (call network v self path data params t) <> Exit code).
Proof.
  destruct (_get_base_url self) as [base_url | e] eqn:Hb.
  - destruct (call_returns network v self path data params t base_url Hb)
      as [result [Hc _]].
    rewrite Hc. simpl. split; [right; eexists; reflexivity | discriminate].
  - rewrite (call_base_url_raises network v self path data params t e Hb).
    simpl. split; [now left | discriminate].
Qed.

(** X6. Not only an empty mapping: any body or any parameters that Python
    counts as false (zero, [False], an empty string, an empty list) are
    left out of the request, which is then the request made with [None],
    with the same status, data, error and headers in the result. *)
Theorem falsy_arguments_are_dropped
    (network : trace -> Request -> result Response.t) (v : verb)
    (self : APIClient) (path : string) (x data params : pyval) (t : trace) :
  py_truthy x = false ->
  (same_outcome (fst (call network v self path x params t))
                (fst (call network v self path PNone params t))
   /\ snd (call network v self path x params t)
      = snd (call network v self path PNone params t))
  /\ (same_outcome (fst (call network v self path data x t))
                   (fst (call network v self path data PNone t))
      /\ snd (call network v self path data x t)
         = snd (call network v self path data PNone t)).
Proof.
  intros Hx. split; apply same_call; intros url;
    unfold wire_request, _prepare_request_kwargs;
    destruct v; simpl; rewrite ?Hx; reflexivity.
Qed.

Lemma falsy_arguments_are_dropped_witness :
  (same_outcome
     (fst (call (health_network (Raise connection_refused)) POST health_client
             "/v3/health" (PInt 0) PNone []))
     (fst (call (health_network (Raise connection_refused)) POST health_client
             "/v3/health" PNone PNone []))
   /\ snd (call (health_network (Raise connection_refused)) POST health_client
             "/v3/health" (PInt 0) PNone [])
      = snd (call (health_network (Raise connection_refused)) POST health_client
               "/v3/health" PNone PNone []))
  /\ (same_outcome
        (fst (call (health_network (Raise connection_refused)) POST health_client
                "/v3/health" PNone (PInt 0) []))
        (fst (call (health_network (Raise connection_refused)) POST health_client
                "/v3/health" PNone PNone []))
      /\ snd (call (health_network (Raise connection_refused)) POST health_client
                "/v3/health" PNone (PInt 0) [])
         = snd (call (health_network (Raise connection_refused)) POST health_client
                  "/v3/health" PNone PNone [])).
Proof.
  apply (falsy_arguments_are_dropped (health_network (Raise connection_refused))
           POST health_client "/v3/health" (PInt 0) PNone PNone []).
  reflexivity.
Defined.

(** X7. The verb methods do not consult the endpoint index: two clients
    with the same configuration and the same document behave alike,
    whatever their indexes hold, so a path or a method that the document
    does not describe is requested all the same. *)
Theorem verbs_ignore_the_index
    (network : trace -> Request -> result Response.t) (v : verb)
    (self other : APIClient) (path : string) (data params : pyval) (t : trace) :
  config self = config other ->
  spec_dict self = spec_dict other ->
  call network v self path data params t = call network v other path data params t.
Proof.
  intros Hc Hs.
  assert (_get_base_url self = _get_base_url other) as Hb
    by (unfold _get_base_url; now rewrite Hc, Hs).
  assert (forall url, wire_request v self url data params
                      = wire_request v other url data params) as Hw
    by (intros url; unfold wire_request, _prepare_request_kwargs; now rewrite Hc).
  destruct (_get_base_url other) as [base_url | e] eqn:Ho.
  - rewrite (call_unfold network v self path data params t base_url Hb).
    rewrite (call_unfold network v other path data params t base_url Ho).
    cbv zeta. now rewrite Hw.
  - rewrite (call_base_url_raises network v self path data params t e Hb).
    now rewrite (call_base_url_raises network v other path data params t e Ho).
Qed.

Lemma verbs_ignore_the_index_witness :
  call (health_network (Raise connection_refused)) PUT health_client
    "/not/in/the/document" (PDict [("a", PInt 1)]) PNone []
  = call (health_network (Raise connection_refused)) PUT
      {| config := sample_config; spec_dict := health_spec; endpoints := [] |}
      "/not/in/the/document" (PDict [("a", PInt 1)]) PNone [].
Proof.
  apply (verbs_ignore_the_index (health_network (Raise connection_refused)) PUT
           health_client
           {| config := sample_config; spec_dict := health_spec; endpoints := [] |}
           "/not/in/the/document" (PDict [("a", PInt 1)]) PNone []);
    reflexivity.
Defined.

(** X8. A response with an error status is no exception: the verb method
    returns a result with [success] false and [error] set.  When the body
    of the response is empty, decodes, or fails to decode with a JSON
    decode error, the result has the status and the headers of the
    response, and [error] is [str] of the data: [None] for an empty body,
    the raw text when decoding failed, the string itself for a decoded
    string, a text that holds every plain string and key of the decoded
    body.  When decoding raises anything else, the result has status 500,
    no headers and no data, and [error] is the message of what was
    raised. *)
Theorem error_status_is_a_result
    (network : trace -> Request -> result Response.t) (v : verb)
    (self : APIClient) (path : string) (data params : pyval) (t : trace)
    (base_url : string) (response : Response.t) :
  _get_base_url self = Ok base_url ->
  network t (wire_request v self (full_url base_url path) data params) = Ok response ->
  400 <= Response.status_code response ->
  exists result e,
    fst (call network v self path data params t) = Ret result
    /\ APIResponse.success result = false
    /\ APIResponse.error result = Some e
    /\ (decodes_or_json_error response = true ->
        APIResponse.status_code result = Response.status_code response
        /\ APIResponse.headers result = dict_update [] (Response.headers response)
        /\ (Response.content response = "" ->
            APIResponse.data result = PNone /\ e = "None")
        /\ (forall msg, Response.content response <> "" ->
                        Response.body response = Undecodable msg ->
                        APIResponse.data result = PStr (Response.text response)
                        /\ e = Response.text response)
        /\ (forall d, Response.content response <> "" ->
                      Response.body response = Decoded d ->
                      APIResponse.data result = d
                      /\ (forall s, d = PStr s -> e = s)
                      /\ (forall s, In s (strings_of d) -> plain s = true ->
                                    is_substring s e = true)
                      /\ (ascii_only d = true -> e = py_str d)))
    /\ (decodes_or_json_error response = false ->
        APIResponse.status_code result = 500
        /\ APIResponse.headers result = []
        /\ APIResponse.data result = PNone
        /\ Response.body response = Undecodable e).
Proof.
  intros Hb Hnet Hs.
  rewrite (call_unfold network v self path data params t base_url Hb).
  cbv zeta. rewrite Hnet.
  unfold decodes_or_json_error, _process_response, Response.json.
  destruct (Z.ltb_spec (Response.status_code response) 400) as [H | H]; [lia |].
  destruct (String.eqb_spec (Response.content response) "") as [Hc | Hc];
    cbn [negb orb].
  - do 2 eexists. split; [reflexivity |]. split; [reflexivity |].
    split; [reflexivity |]. split; [| discriminate].
    intros _. repeat split; try contradiction.
  - destruct (Response.body response) as [d | msg] eqn:Hbody.
    + do 2 eexists. split; [reflexivity |]. split; [reflexivity |].
      split; [reflexivity |]. split; [| discriminate].
      intros _. split; [reflexivity |]. split; [reflexivity |].
      split; [intros Hc'; contradiction |]. split; [discriminate |].
      intros d' _ [= <-]. split; [reflexivity |].
      split; [intros s ->; reflexivity |].
      split; [| reflexivity].
      intros s Hin Hp. now apply py_str_contains.
    + destruct (Response.json_raises response); simpl;
        do 2 eexists; (split; [reflexivity |]); (split; [reflexivity |]);
        (split; [reflexivity |]); split; try discriminate; intros _;
        repeat split; try contradiction; try discriminate.
Qed.

Lemma error_status_is_a_result_witness :
  exists result e,
    fst (call (health_network (Ok (http_response 404 "Not Found"
                                     "http://localhost:7272/v3/nothing" "Not Found")))
           GET health_client "/v3/nothing" PNone PNone []) = Ret result
    /\ APIResponse.success result = false
    /\ APIResponse.error result = Some e
    /\ (decodes_or_json_error (http_response 404 "Not Found" "http://localhost:7272/v3/nothing" "Not Found") = true ->
        APIResponse.status_code result = Response.status_code (http_response 404 "Not Found" "http://localhost:7272/v3/nothing" "Not Found")
        /\ APIResponse.headers result = dict_update [] (Response.headers (http_response 404 "Not Found" "http://localhost:7272/v3/nothing" "Not Found"))
        /\ (Response.content (http_response 404 "Not Found" "http://localhost:7272/v3/nothing" "Not Found") = "" ->
            APIResponse.data result = PNone /\ e = "None")
        /\ (forall msg, Response.content (http_response 404 "Not Found" "http://localhost:7272/v3/nothing" "Not Found") <> "" ->
                        Response.body (http_response 404 "Not Found" "http://localhost:7272/v3/nothing" "Not Found") = Undecodable msg ->
                        APIResponse.data result = PStr (Response.text (http_response 404 "Not Found" "http://localhost:7272/v3/nothing" "Not Found"))
                        /\ e = Response.text (http_response 404 "Not Found" "http://localhost:7272/v3/nothing" "Not Found"))
        /\ (forall d, Response.content (http_response 404 "Not Found" "http://localhost:7272/v3/nothing" "Not Found") <> "" ->
                      Response.body (http_response 404 "Not Found" "http://localhost:7272/v3/nothing" "Not Found") = Decoded d ->
                      APIResponse.data result = d
                      /\ (forall s, d = PStr s -> e = s)
                      /\ (forall s, In s (strings_of d) -> plain s = true ->
                                    is_substring s e = true)
                      /\ (ascii_only d = true -> e = py_str d)))
    /\ (decodes_or_json_error (http_response 404 "Not Found" "http://localhost:7272/v3/nothing" "Not Found") = false ->
        APIResponse.status_code result = 500
        /\ APIResponse.headers result = []
        /\ APIResponse.data result = PNone
        /\ Response.body (http_response 404 "Not Found" "http://localhost:7272/v3/nothing" "Not Found") = Undecodable e).
Proof.
  apply (error_status_is_a_result
           (health_network (Ok (http_response 404 "Not Found"
                                  "http://localhost:7272/v3/nothing" "Not Found")))
           GET health_client "/v3/nothing" PNone PNone []
           "http://localhost:7272"
           (http_response 404 "Not Found" "http://localhost:7272/v3/nothing" "Not Found"));
    [reflexivity | reflexivity | simpl; lia].
Defined.

(** ** The base URL *)

Lemma has_scheme_normalize (s : string) : has_scheme (normalize_base_url s) = true.
Proof.
  unfold normalize_base_url.
  destruct (endswith_slash s).
  - destruct (startswith (drop_last s) "http://" || startswith (drop_last s) "https://")
      eqn:E; cbn [negb]; [exact E |].
    unfold has_scheme. simpl. reflexivity.
  - destruct (startswith s "http://" || startswith s "https://")
      eqn:E; cbn [negb]; [exact E |].
    unfold has_scheme. simpl. reflexivity.
Qed.

Lemma startswith_append (s rest p : string) :
  startswith s p = true -> startswith (s ++ rest) p = true.
Proof.
  revert s. induction p as [| a p IH]; intros s; simpl; [reflexivity |].
  destruct s as [| b s]; [discriminate |]. simpl.
  rewrite !andb_true_iff. intros [Hab H]. split; [exact Hab | now apply IH].
Qed.

(** Every base URL that [_get_base_url] returns is a normalised string. *)
Lemma get_base_url_normalized (self : APIClient) (url : string) :
  _get_base_url self = Ok url -> exists s, url = normalize_base_url s.
Proof.
  unfold _get_base_url, rbind.
  destruct (py_contains "servers" (spec_dict self)) as [[] |]; try discriminate.
  - destruct (py_getitem "servers" (spec_dict self)) as [servers |]; try discriminate.
    destruct (py_truthy servers).
    + destruct (py_first servers) as [first |]; try discriminate.
      destruct (py_contains "url" first) as [[] |]; try discriminate.
      * destruct (py_getitem "url" first) as [[| | | s | |] |]; try discriminate.
        intros [= <-]. eauto.
      * intros [= <-]. eauto.
    + intros [= <-]. eauto.
  - intros [= <-]. eauto.
Qed.

(** X9. Every request of a verb method goes to a URL that starts with
    [http://] or [https://]: the resolved base URL followed by the path,
    with a slash between them when the path has none in front.  A base URL
    given with [http://] is not moved to [https://]. *)
Theorem verb_urls_have_a_scheme
    (network : trace -> Request -> result Response.t) (v : verb)
    (self : APIClient) (path : string) (data params : pyval) (r : Request) :
  In (HttpRequest r) (snd (call network v self path data params [])) ->
  exists base_url,
    _get_base_url self = Ok base_url
    /\ has_scheme base_url = true
    /\ req_url r = (base_url ++ (if startswith path "/" then path else "/" ++ path))%string
    /\ has_scheme (req_url r) = true.
Proof.
  intros Hin. destruct (_get_base_url self) as [base_url | e] eqn:Hb.
  - destruct (call_returns network v self path data params [] base_url Hb)
      as [result [Hc _]].
    rewrite Hc in Hin. simpl in Hin. destruct Hin as [[= <-] | []].
    destruct (get_base_url_normalized self base_url Hb) as [s ->].
    exists (normalize_base_url s). split; [reflexivity |].
    pose proof (has_scheme_normalize s) as Hs.
    split; [exact Hs |]. split; [reflexivity |].
    simpl. unfold full_url, has_scheme in *.
    apply orb_true_iff in Hs. apply orb_true_iff.
    destruct Hs as [Hs | Hs]; [left | right]; now apply startswith_append.
  - rewrite (call_base_url_raises network v self path data params [] e Hb) in Hin.
    destruct Hin.
Qed.

Lemma verb_urls_have_a_scheme_witness :
  exists base_url,
    _get_base_url (client_with "localhost:7272/" []) = Ok base_url
    /\ has_scheme base_url = true
    /\ req_url (wire_request GET (client_with "localhost:7272/" [])
                  "https://localhost:7272/v3/health" PNone PNone)
       = (base_url ++ "/v3/health")%string
    /\ has_scheme
         (req_url (wire_request GET (client_with "localhost:7272/" [])
                     "https://localhost:7272/v3/health" PNone PNone)) = true.
Proof.
  apply (verb_urls_have_a_scheme (health_network (Raise connection_refused)) GET
           (client_with "localhost:7272/" []) "v3/health" PNone PNone
           (wire_request GET (client_with "localhost:7272/" [])
              "https://localhost:7272/v3/health" PNone PNone)).
  simpl. left. reflexivity.
Defined.

(** X10. With no [servers] in the document the base URL is the configured
    one, normalised; it still ends with a slash exactly when the configured
    one is empty, is a single slash, or ends with two slashes.  In every
    other case the result has no trailing slash. *)
Theorem configured_base_url_trailing_slash (self : APIClient) (document : dict pyval) :
  spec_dict self = PDict document ->
  dict_get "servers" document = None ->
  exists url,
    _get_base_url self = Ok url
    /\ url = normalize_base_url (APIClientConfig.api_base_url (config self))
    /\ endswith_slash url
       = String.eqb (APIClientConfig.api_base_url (config self)) ""
         || String.eqb (APIClientConfig.api_base_url (config self)) "/"
         || (endswith_slash (APIClientConfig.api_base_url (config self))
             && endswith_slash (drop_last (APIClientConfig.api_base_url (config self)))).
Proof.
  intros Hs Hn. eexists. split; [| split; [reflexivity |]].
  - apply (get_base_url_fallback self document Hs). now left.
  - apply normalize_base_url_trailing_slash.
Qed.

Lemma configured_base_url_trailing_slash_witness :
  exists url,
    _get_base_url (client_with "api.example.com/v1/" [("openapi", PStr "3.0.0")]) = Ok url
    /\ url = normalize_base_url "api.example.com/v1/"
    /\ endswith_slash url
       = String.eqb "api.example.com/v1/" "" || String.eqb "api.example.com/v1/" "/"
         || (endswith_slash "api.example.com/v1/"
             && endswith_slash (drop_last "api.example.com/v1/")).
Proof.
  apply (configured_base_url_trailing_slash
           (client_with "api.example.com/v1/" [("openapi", PStr "3.0.0")])
           [("openapi", PStr "3.0.0")]); reflexivity.
Defined.

(** ** The index and the lookups in it *)

Lemma parse_methods_outcome (methods : dict pyval) :
  forall inner0,
    match parse_methods methods inner0 with
    | Ok _ => valid_operations methods = true
    | Raise e => valid_operations methods = false /\ exn_kind e = AttributeError
    end.
Proof.
  induction methods as [| [m details] rest IH]; intros inner0; simpl.
  - reflexivity.
  - destruct (is_supported m); simpl.
    + destruct details as [| | | | | op]; simpl; try (split; reflexivity).
      apply IH.
    + apply IH.
Qed.

Lemma parse_paths_outcome (paths : dict pyval) :
  forall acc,
    match parse_paths paths acc with
    | Ok _ =>
        forallb (fun kv => match snd kv with
                           | PDict methods => valid_operations methods
                           | _ => false
                           end) paths = true
    | Raise e =>
        forallb (fun kv => match snd kv with
                           | PDict methods => valid_operations methods
                           | _ => false
                           end) paths = false
        /\ exn_kind e = AttributeError
    end.
Proof.
  induction paths as [| [path v] rest IH]; intros acc; simpl.
  - reflexivity.
  - destruct v as [| | | | | methods]; simpl; try (split; reflexivity).
    pose proof (parse_methods_outcome methods []) as Hm.
    destruct (parse_methods methods []) as [inner | e]; simpl.
    + rewrite Hm. simpl. apply IH.
    + destruct Hm as [Hm He]. rewrite Hm. simpl. auto.
Qed.

(** X11. On a document that is a mapping, [_parse_endpoints] returns
    exactly when [paths] is absent or has the shape of a mapping of
    mappings with an operation object under each supported method; on any
    other [paths] it raises an [AttributeError].  What stands under a key
    that is no supported method is never looked at. *)
Theorem parse_endpoints_raises_on_shape (document : dict pyval) :
  match _parse_endpoints (PDict document) with
  | Ok _ => index_shape document = true
  | Raise e => index_shape document = false /\ exn_kind e = AttributeError
  end.
Proof.
  unfold _parse_endpoints, index_shape. simpl. unfold dict_mem.
  destruct (dict_get "paths" document) as [v |]; simpl; [| reflexivity].
  destruct v as [| | | | | paths]; simpl; try (split; reflexivity).
  apply parse_paths_outcome.
Qed.

Lemma parse_methods_app (a b : dict pyval) :
  forall inner0,
    parse_methods (a ++ b) inner0 = rbind (parse_methods a inner0) (parse_methods b).
Proof.
  induction a as [| [m details] a IH]; intros inner0; simpl.
  - reflexivity.
  - destruct (is_supported m); simpl; [| apply IH].
    destruct details as [| | | | | op]; simpl; try reflexivity.
    apply IH.
Qed.

Lemma parse_methods_preserves (K : string) (methods : dict pyval) :
  forall inner0 inner,
    (forall m, In m (keys methods) -> upper m <> K) ->
    parse_methods methods inner0 = Ok inner ->
    dict_get K inner = dict_get K inner0.
Proof.
  induction methods as [| [m details] rest IH]; intros inner0 inner Hk; simpl.
  - now intros [= <-].
  - assert (forall m', In m' (keys rest) -> upper m' <> K) as Hrest
      by (intros m' H; apply Hk; now right).
    destruct (is_supported m); simpl; [| now apply IH].
    destruct details as [| | | | | op]; simpl; try discriminate.
    intros Hp. rewrite (IH _ _ Hrest Hp).
    apply dict_get_set_other. intros ->. now apply (Hk m (or_introl eq_refl)).
Qed.

(** X12. Indexing and lookup fit together.  For a client whose index is the
    index of its document: the operation written under a supported method
    of a path, when no later method of that path has the same upper-cased
    name, is what [get_endpoint_details] returns for that path and method,
    reduced to summary, description, parameters, requestBody and responses,
    each with its default when the operation lacks it.  When two methods of
    a path differ in case only, the later one is the one kept. *)
Theorem indexed_operation_lookup
    (self : APIClient) (document paths : dict pyval) (path m : string)
    (before after op : dict pyval) :
  spec_dict self = PDict document ->
  _parse_endpoints (spec_dict self) = Ok (endpoints self) ->
  dict_get "paths" document = Some (PDict paths) ->
  NoDup (keys paths) ->
  In (path, PDict (before ++ (m, PDict op) :: after)) paths ->
  is_supported m = true ->
  (forall m', In m' (keys after) -> upper m' <> upper m) ->
  get_endpoint_details self path m = Ok (operation_metadata op).
Proof.
  intros Hs Hparse Hpaths Hnd Hin Hsup Hlast.
  rewrite Hs in Hparse.
  assert (parse_paths paths [] = Ok (endpoints self)) as Hpp.
  { unfold _parse_endpoints in Hparse. simpl in Hparse. unfold dict_mem in Hparse.
    rewrite Hpaths in Hparse. exact Hparse. }
  pose proof (parse_paths_outcome paths []) as Hshape. rewrite Hpp in Hshape.
  destruct (parse_paths_index paths [] Hnd (fun _ _ H => H) Hshape)
    as [index [Hi [_ [_ Hall]]]].
  rewrite Hpp in Hi. injection Hi as <-.
  destruct (Hall path _ Hin) as [methods [inner [[= <-] [Hm Hg]]]].
  rewrite parse_methods_app in Hm.
  destruct (parse_methods before []) as [inner1 | e]; [| discriminate].
  simpl in Hm. rewrite Hsup in Hm. simpl in Hm.
  apply (parse_methods_preserves (upper m) after _ _ Hlast) in Hm.
  rewrite dict_get_set_same in Hm.
  unfold get_endpoint_details. rewrite Hg, Hm. reflexivity.
Qed.

(** On a path that has [get] and, after it, [GET]. *)
Lemma indexed_operation_lookup_witness :
  get_endpoint_details twice_client "/items" "GET"
  = Ok (operation_metadata [("summary", PStr "second");
                            ("responses", PDict [("200", PDict [])])]).
Proof.
  apply (indexed_operation_lookup twice_client
           [("paths", PDict twice_paths)] twice_paths "/items" "GET"
           [("get", PDict [("summary", PStr "first"); ("x-internal", PBool true)])]
           [("head", PStr "not looked at")]
           [("summary", PStr "second"); ("responses", PDict [("200", PDict [])])]);
    try reflexivity.
  - apply distinct_NoDup. reflexivity.
  - left. reflexivity.
  - simpl. intros m' [<- | []]. discriminate.
Defined.

(** ** Construction *)

(** X13. [APIClient(config)] issues one request, the GET of the document
    with the timeout and the TLS flag and without the configured headers,
    and never exits.  The client it returns holds the configuration, the
    document that was fetched, and the index of that very document.  When
    the document is fetched but cannot be indexed, the exception of the
    indexing leaves the constructor as it is, not as a fetch error. *)
Theorem construction_outcomes
    (network : trace -> Request -> result Response.t)
    (config0 : APIClientConfig.t) (t : trace) :
  snd (APIClient_init network config0 t)
    = (t ++ [HttpRequest (spec_request config0)])%list
  /\ kw_headers (req_kwargs (spec_request config0)) = None
  /\ (forall code, fst (APIClient_init network config0 t) <> Exit code)
  /\ (forall client,
        fst (APIClient_init network config0 t) = Ret client ->
        config client = config0
        /\ fst (_fetch_openapi_spec network config0 t) = Ret (spec_dict client)
        /\ _parse_endpoints (spec_dict client) = Ok (endpoints client))
  /\ (forall spec e,
        fst (_fetch_openapi_spec network config0 t) = Ret spec ->
        _parse_endpoints spec = Raise e ->
        fst (APIClient_init network config0 t) = Exc e).
Proof.
  split; [apply APIClient_init_trace |].
  split; [reflexivity |].
  split; [apply APIClient_init_no_exit |].
  unfold APIClient_init, bind.
  destruct (_fetch_openapi_spec network config0 t) as [[spec | e0 | code] t'];
    simpl; split; try discriminate.
  - intros client. unfold lift.
    destruct (_parse_endpoints spec) as [index | e] eqn:Hp; simpl; [| discriminate].
    intros [= <-]. simpl. auto.
  - intros spec' e [= <-] Hp. now rewrite Hp.
Qed.

(** A document whose [paths] is a list is fetched, and the construction
    ends in the [AttributeError] of the indexing. *)
Example construction_on_a_list_of_paths :
  exists e,
    fst (APIClient_init
              (serve "http://localhost:7272/openapi.json"
                 (spec_response ("{" ++ q "paths" ++ ": []}"))
                 (Raise connection_refused))
              sample_config [])
       = Exc e
    /\ exn_kind e = AttributeError.
Proof. eexists. split; reflexivity. Qed.

(** ** More of the command line *)

(** X14. The [endpoints] subcommand builds the client, prints its index as
    JSON and returns, so the process exits with status 0 after the GET of
    the document; [--params] and [--data] are not read at all. *)
Theorem endpoints_subcommand
    (network : trace -> Request -> result Response.t)
    (json_loads : string -> decoded) (args : Namespace.t)
    (client : APIClient) (t1 : trace) :
  Namespace.method args = "endpoints" ->
  APIClient_init network (cli_config args) [] = (Ret client, t1) ->
  client_process network json_loads args
  = (0, [HttpRequest (spec_request (cli_config args));
         PrintJson (endpoints_value (endpoints client))]).
Proof.
  intros Hm Hinit.
  pose proof (APIClient_init_trace network (cli_config args) []) as Ht.
  rewrite Hinit in Ht. simpl in Ht. subst t1.
  unfold client_process, run_client_mode, bind.
  change (APIClientConfig.mk (Namespace.openapi args) (Namespace.base_url args) []
            (Namespace.timeout args) true (Namespace.verbose args))
    with (cli_config args).
  rewrite Hinit, Hm. reflexivity.
Qed.

Lemma endpoints_subcommand_witness :
  client_process (health_network (Raise connection_refused)) json_decode
    (sample_args "endpoints" "" (Some "{bad") None)
  = (0, [HttpRequest (spec_request sample_config);
         PrintJson (endpoints_value health_endpoints)]).
Proof.
  apply (endpoints_subcommand (health_network (Raise connection_refused)) json_decode
           (sample_args "endpoints" "" (Some "{bad") None) health_client
           [HttpRequest (spec_request sample_config)]); reflexivity.
Defined.

(** X15. When the client cannot be built, whatever the subcommand, the
    exception is not caught: the process exits with status 1 after the GET
    of the document, has printed nothing on the standard output, and has
    not read [--params] or [--data]. *)
Theorem construction_failure_exit
    (network : trace -> Request -> result Response.t)
    (json_loads : string -> decoded) (args : Namespace.t) (e : exn) :
  fst (APIClient_init network (cli_config args) []) = Exc e ->
  client_process network json_loads args
  = (1, [HttpRequest (spec_request (cli_config args))]).
Proof.
  intros Hinit.
  pose proof (APIClient_init_trace network (cli_config args) []) as Ht.
  unfold client_process, run_client_mode, bind.
  change (APIClientConfig.mk (Namespace.openapi args) (Namespace.base_url args) []
            (Namespace.timeout args) true (Namespace.verbose args))
    with (cli_config args).
  destruct (APIClient_init network (cli_config args) []) as [o t1].
  simpl in Hinit, Ht. subst o t1. reflexivity.
Qed.

Lemma construction_failure_exit_witness :
  client_process (fun _ _ => Raise connection_refused) json_decode
    (sample_args "get" "/v3/health" None None)
  = (1, [HttpRequest (spec_request sample_config)]).
Proof.
  apply (construction_failure_exit (fun _ _ => Raise connection_refused) json_decode
           (sample_args "get" "/v3/health" None None)
           (fetch_error "Connection refused")).
  reflexivity.
Defined.

(** X16. A method that is neither a verb subcommand nor [endpoints] is
    refused only after the client is built and both arguments are read:
    the process then prints [Unknown method] and exits with status 1, and
    no request but the GET of the document has been made. *)
Theorem unknown_method_exit
    (network : trace -> Request -> result Response.t)
    (json_loads : string -> decoded) (args : Namespace.t)
    (client : APIClient) (t1 : trace) :
  verb_of (Namespace.method args) = None ->
  Namespace.method args <> "endpoints" ->
  APIClient_init network (cli_config args) [] = (Ret client, t1) ->
  malformed json_loads (Namespace.params args) = false ->
  malformed json_loads (Namespace.data args) = false ->
  client_process network json_loads args
  = (1, [HttpRequest (spec_request (cli_config args));
         Print ("Unknown method: " ++ Namespace.method args)]).
Proof.
  intros Hv Hne Hinit Hp Hd.
  pose proof (APIClient_init_trace network (cli_config args) []) as Ht.
  rewrite Hinit in Ht. simpl in Ht. subst t1.
  unfold client_process, run_client_mode, bind.
  change (APIClientConfig.mk (Namespace.openapi args) (Namespace.base_url args) []
            (Namespace.timeout args) true (Namespace.verbose args))
    with (cli_config args).
  rewrite Hinit.
  destruct (String.eqb_spec (Namespace.method args) "endpoints"); [contradiction |].
  rewrite (parse_json_arg_value json_loads _ _ Hp).
  rewrite (parse_json_arg_value json_loads _ _ Hd).
  unfold verb_of in Hv.
  destruct (Namespace.method args =? "get")%string; [discriminate |].
  destruct (Namespace.method args =? "post")%string; [discriminate |].
  destruct (Namespace.method args =? "put")%string; [discriminate |].
  destruct (Namespace.method args =? "delete")%string; [discriminate |].
  destruct (Namespace.method args =? "patch")%string; [discriminate |].
  reflexivity.
Qed.

Lemma unknown_method_exit_witness :
  client_process (health_network (Raise connection_refused)) json_decode
    (sample_args "head" "/v3/health" None None)
  = (1, [HttpRequest (spec_request sample_config); Print "Unknown method: head"]).
Proof.
  apply (unknown_method_exit (health_network (Raise connection_refused)) json_decode
           (sample_args "head" "/v3/health" None None) health_client
           [HttpRequest (spec_request sample_config)]);
    try reflexivity.
  discriminate.
Defined.

(** ** The agent's catalogue and its fetch *)

Lemma group_step_listed (acc : dict (list pyval)) (U M path p : string)
    (fields : dict pyval) :
  let acc1 := if negb (dict_mem U acc) then dict_set U [] acc else acc in
  exists l,
    dict_get U acc1 = Some l
    /\ (listed M p (dict_set U (l ++ [PDict (("path", PStr path) :: fields)])%list acc1)
        <-> listed M p acc \/ (M = U /\ p = path)).
Proof.
  intros acc1.
  assert (dict_get U acc1 = Some (dict_get_default U [] acc)) as Hl.
  { unfold acc1, dict_mem, dict_get_default.
    destruct (dict_get U acc) as [l |] eqn:E; simpl.
    - exact E.
    - apply dict_get_set_same. }
  exists (dict_get_default U [] acc). split; [exact Hl |].
  unfold listed. destruct (String.eqb_spec M U) as [-> | Hne].
  - unfold dict_get_default at 1. rewrite dict_get_set_same. split.
    + intros [f Hin]. apply in_app_or in Hin. destruct Hin as [Hin | [[= -> ->] | []]].
      * left. eauto.
      * right. auto.
    + intros [[f Hin] | [_ ->]].
      * exists f. apply in_or_app. now left.
      * exists fields. apply in_or_app. right. now left.
  - assert (dict_get_default M []
              (dict_set U (dict_get_default U [] acc
                           ++ [PDict (("path", PStr path) :: fields)])%list acc1)
            = dict_get_default M [] acc) as ->.
    { unfold dict_get_default at 1 3. rewrite dict_get_set_other by exact Hne.
      unfold acc1. destruct (negb (dict_mem U acc)); [| reflexivity].
      now rewrite dict_get_set_other by exact Hne. }
    split; [now left |]. intros [H | [-> _]]; [exact H | contradiction].
Qed.

Lemma group_methods_listed (path : string) (items : dict pyval) :
  forall acc,
    valid_operations items = true ->
    exists acc',
      APIAgent.group_methods path items acc = Ok acc'
      /\ forall M p,
           listed M p acc'
           <-> listed M p acc
               \/ (p = path
                   /\ exists m, In m (keys items) /\ is_supported m = true /\ M = upper m).
Proof.
  induction items as [| [m details] rest IH]; intros acc Hv.
  - exists acc. split; [reflexivity |]. intros M p.
    split; [auto | intros [H | [_ [m [[] _]]]]; exact H].
  - simpl in Hv. apply andb_true_iff in Hv. destruct Hv as [Hm Hrest].
    simpl. destruct (is_supported m) eqn:Hs; simpl in *.
    + destruct details as [| | | | | op]; try discriminate. simpl.
      set (fields := [("summary", dict_get_default "summary" (PStr "") op);
                      ("description", dict_get_default "description" (PStr "") op);
                      ("parameters", dict_get_default "parameters" (PList []) op);
                      ("requestBody", dict_get_default "requestBody" (PDict []) op)]).
      assert (forall M p, exists l,
                dict_get (upper m)
                  (if negb (dict_mem (upper m) acc)
                   then dict_set (upper m) [] acc else acc) = Some l
                /\ (listed M p
                      (dict_set (upper m)
                         (l ++ [PDict (("path", PStr path) :: fields)])%list
                         (if negb (dict_mem (upper m) acc)
                          then dict_set (upper m) [] acc else acc))
                    <-> listed M p acc \/ (M = upper m /\ p = path))) as Hstep
        by (intros M p; apply (group_step_listed acc (upper m) M path p fields)).
      destruct (Hstep "" "") as [l [Hl _]]. rewrite Hl.
      destruct (IH (dict_set (upper m)
                      (l ++ [PDict (("path", PStr path) :: fields)])%list
                      (if negb (dict_mem (upper m) acc)
                       then dict_set (upper m) [] acc else acc)) Hrest)
        as [acc' [Hg Hk]].
      exists acc'. split; [exact Hg |].
      intros M p. rewrite Hk.
      destruct (Hstep M p) as [l' [Hl' Hiff]].
      rewrite Hl in Hl'. injection Hl' as <-. rewrite Hiff. split.
      * intros [[H | [-> ->]] | [-> [m' [Hin [Hs' ->]]]]].
        -- now left.
        -- right. split; [reflexivity |]. exists m. auto.
        -- right. split; [reflexivity |]. exists m'. auto.
      * intros [H | [-> [m' [[<- | Hin] [Hs' ->]]]]].
        -- left. now left.
        -- left. right. auto.
        -- right. split; [reflexivity |]. exists m'. auto.
    + destruct (IH acc Hrest) as [acc' [Hg Hk]].
      exists acc'. split; [exact Hg |].
      intros M p. rewrite Hk. split.
      * intros [H | [-> [m' [Hin [Hs' ->]]]]]; [now left |].
        right. split; [reflexivity |]. exists m'. auto.
      * intros [H | [-> [m' [[<- | Hin] [Hs' ->]]]]]; [now left | congruence |].
        right. split; [reflexivity |]. exists m'. auto.
Qed.

Lemma group_paths_listed (paths : dict pyval) :
  forall acc,
    forallb (fun kv => match snd kv with
                       | PDict methods => valid_operations methods
                       | _ => false
                       end) paths = true ->
    exists acc',
      APIAgent.group_paths paths acc = Ok acc'
      /\ forall M p,
           listed M p acc'
           <-> listed M p acc
               \/ exists methods m,
                    In (p, PDict methods) paths
                    /\ In m (keys methods) /\ is_supported m = true /\ M = upper m.
Proof.
  induction paths as [| [path v] rest IH]; intros acc Hv.
  - exists acc. split; [reflexivity |]. intros M p.
    split; [auto | intros [H | [ms [m [[] _]]]]; exact H].
  - simpl in Hv. apply andb_true_iff in Hv. destruct Hv as [Hm Hrest].
    destruct v as [| | | | | methods]; try discriminate.
    destruct (group_methods_listed path methods acc Hm) as [acc1 [Hg1 Hk1]].
    destruct (IH acc1 Hrest) as [acc' [Hg Hk]].
    exists acc'. split; [simpl; rewrite Hg1; exact Hg |].
    intros M p. rewrite Hk, Hk1. split.
    + intros [[H | [-> [m [Hin [Hs ->]]]]] | [ms [m [Hin [Hm' [Hs ->]]]]]].
      * now left.
      * right. exists methods, m. simpl. auto.
      * right. exists ms, m. simpl. auto.
    + intros [H | [ms [m [[[= <- <-] | Hin] [Hm' [Hs ->]]]]]].
      * left. now left.
      * left. right. split; [reflexivity |]. exists m. auto.
      * right. exists ms, m. auto.
Qed.

(** X17. The agent and the client read the same catalogue off a document:
    on a valid [paths], [APIAgent.get_available_endpoints] and
    [_parse_endpoints] both return, and the agent lists a path under a
    method exactly when the client's index has that method under that
    path. *)
Theorem agent_and_client_catalogues_agree (document paths : dict pyval) :
  dict_get "paths" document = Some (PDict paths) ->
  valid_paths paths = true ->
  exists groups index,
    APIAgent.get_available_endpoints (PDict document) = Ok groups
    /\ _parse_endpoints (PDict document) = Ok index
    /\ forall method path,
         listed method path groups
         <-> exists inner, dict_get path index = Some inner /\ In method (keys inner).
Proof.
  intros Hpaths Hvalid.
  unfold valid_paths in Hvalid. apply andb_true_iff in Hvalid.
  destruct Hvalid as [Hd Hv]. apply distinct_NoDup in Hd.
  destruct (group_paths_listed paths [] Hv) as [groups [Hg Hk]].
  destruct (parse_paths_index paths [] Hd (fun _ _ H => H) Hv)
    as [index [Hi [Hkeys [_ Hall]]]].
  exists groups, index. split; [| split].
  - unfold APIAgent.get_available_endpoints. simpl. unfold dict_mem.
    rewrite Hpaths. exact Hg.
  - unfold _parse_endpoints. simpl. unfold dict_mem. rewrite Hpaths. exact Hi.
  - intros M p. rewrite Hk. split.
    + intros [[f []] | [methods [m [Hin [Hm [Hs ->]]]]]].
      destruct (Hall p _ Hin) as [methods' [inner [[= <-] [Hp Hget]]]].
      exists inner. split; [exact Hget |].
      assert (valid_operations methods = true) as Hvm.
      { rewrite forallb_forall in Hv. apply (Hv (p, PDict methods) Hin). }
      destruct (parse_methods_keys methods [] Hvm) as [inner' [Hp' Hk']].
      rewrite Hp in Hp'. injection Hp' as <-.
      apply Hk'. right. exists m. auto.
    + intros [inner [Hget HM]]. right.
      assert (In p (keys paths)) as Hpk.
      { simpl in Hkeys. rewrite <- Hkeys.
        destruct (dict_get_None p index) as [_ H].
        destruct (in_dec string_dec p (keys index)) as [Hin | Hn]; [exact Hin |].
        rewrite (H Hn) in Hget. discriminate. }
      unfold keys in Hpk. apply in_map_iff in Hpk.
      destruct Hpk as [[p' v] [Heq Hin]]. simpl in Heq. subst p'.
      destruct (Hall p v Hin) as [methods [inner' [-> [Hp Hget']]]].
      rewrite Hget in Hget'. injection Hget' as <-.
      assert (valid_operations methods = true) as Hvm.
      { rewrite forallb_forall in Hv. apply (Hv (p, PDict methods) Hin). }
      destruct (parse_methods_keys methods [] Hvm) as [inner' [Hp' Hk']].
      rewrite Hp in Hp'. injection Hp' as <-.
      apply Hk' in HM. destruct HM as [[] | [m [Hm [Hs ->]]]].
      exists methods, m. auto.
Qed.

Lemma agent_and_client_catalogues_agree_witness :
  exists groups index,
    APIAgent.get_available_endpoints (PDict pets_document) = Ok groups
    /\ _parse_endpoints (PDict pets_document) = Ok index
    /\ forall method path,
         listed method path groups
         <-> exists inner, dict_get path index = Some inner /\ In method (keys inner).
Proof.
  apply (agent_and_client_catalogues_agree pets_document pets_paths); reflexivity.
Defined.

(** Where the two differ: the agent keeps both of two methods that differ
    in case only, the client the later one. *)
Example agent_keeps_both :
  APIAgent.get_available_endpoints (PDict [("paths", PDict twice_paths)])
  = Ok [("GET",
         [PDict [("path", PStr "/items"); ("summary", PStr "first");
                 ("description", PStr ""); ("parameters", PList []);
                 ("requestBody", PDict [])];
          PDict [("path", PStr "/items"); ("summary", PStr "second");
                 ("description", PStr ""); ("parameters", PList []);
                 ("requestBody", PDict [])]])].
Proof. reflexivity. Qed.

Lemma agent_fetch_unfold network config t :
  APIAgent._fetch_openapi_spec network config t =
    (match network t (APIAgent.spec_request config) with
     | Raise e => Exc (fetch_error (exn_str e))
     | Ok response =>
         match Response.raise_for_status response with
         | Raise e => Exc (fetch_error (exn_str e))
         | Ok _ =>
             match Response.body response with
             | Decoded spec =>
                 match py_len spec with
                 | Ok _ => Ret spec
                 | Raise e => Exc (fetch_error (exn_str e))
                 end
             | Undecodable msg => Exc (fetch_error msg)
             end
         end
     end,
     (t ++ [HttpRequest (APIAgent.spec_request config)])%list).
Proof.
  unfold APIAgent._fetch_openapi_spec, try_catch, bind, requests_call,
    APIAgent.spec_request.
  simpl.
  destruct (network t _) as [response | e]; [| reflexivity].
  destruct (Response.raise_for_status response) as [[] | e]; simpl; [| reflexivity].
  unfold Response.json. destruct (Response.body response) as [spec | msg];
    [| reflexivity].
  simpl. destruct (py_len spec); reflexivity.
Qed.

(** X18. The agent's fetch issues one GET and fails, with the message
    [Failed to fetch OpenAPI spec: ...], exactly when the GET raises, the
    status is in 400..599, the body does not decode, or the body decodes to
    [null], a boolean or a number: the length of the document is taken
    inside the [try] block.  So a document the agent holds is always a
    mapping, a list or a string. *)
Theorem agent_fetch_outcomes
    (network : trace -> Request -> result Response.t)
    (config : APIAgentConfig.t) (t : trace) :
  snd (APIAgent._fetch_openapi_spec network config t)
    = (t ++ [HttpRequest (APIAgent.spec_request config)])%list
  /\ ((exists e, fst (APIAgent._fetch_openapi_spec network config t) = Exc e)
      <-> agent_fetch_fails network config t)
  /\ (forall e, fst (APIAgent._fetch_openapi_spec network config t) = Exc e ->
                exists cause, e = fetch_error cause)
  /\ (forall spec, fst (APIAgent._fetch_openapi_spec network config t) = Ret spec ->
                   has_len spec = true)
  /\ (forall code, fst (APIAgent._fetch_openapi_spec network config t) <> Exit code).
Proof.
  rewrite agent_fetch_unfold. unfold agent_fetch_fails. simpl.
  split; [reflexivity |].
  destruct (network t (APIAgent.spec_request config)) as [response | e0].
  - pose proof (raise_for_status_cases response) as Hr.
    destruct (error_status (Response.status_code response)).
    + destruct Hr as [msg Hr]. rewrite Hr.
      repeat split; eauto; try discriminate. intros e [= <-]. eauto.
    + rewrite Hr. destruct (Response.body response) as [spec | msg].
      * destruct spec; simpl; repeat split; eauto 6; try discriminate;
          try (intros [e He]; discriminate);
          try (intros [H | [[msg H] | [spec [[= <-] H]]]]; discriminate);
          try (intros e [= <-]; eauto);
          try (intros spec [= <-]; reflexivity).
      * repeat split; eauto; try discriminate. intros e [= <-]. eauto.
  - repeat split; eauto; try discriminate. intros e [= <-]. eauto.
Qed.

(** The body [42]: the agent's fetch fails on it, the client's returns
    it. *)
Example fetch_of_a_number :
  fst (APIAgent._fetch_openapi_spec
         (serve "http://localhost:7272/openapi.json" (spec_response "42")
            (Raise connection_refused))
         sample_agent_config [])
  = Exc (Exn ValueError
           "Failed to fetch OpenAPI spec: object of type 'int' has no len()")
  /\ fst (_fetch_openapi_spec
            (serve "http://localhost:7272/openapi.json" (spec_response "42")
               (Raise connection_refused))
            sample_config [])
     = Ret (PInt 42).
Proof. split; reflexivity. Qed.

Lemma group_methods_outcome (path : string) (items : dict pyval) :
  forall acc,
    match APIAgent.group_methods path items acc with
    | Ok _ => valid_operations items = true
    | Raise e => valid_operations items = false /\ exn_kind e = AttributeError
    end.
Proof.
  induction items as [| [m details] rest IH]; intros acc; simpl.
  - reflexivity.
  - destruct (is_supported m); simpl; [| apply IH].
    destruct details as [| | | | | op]; simpl; try (split; reflexivity).
    destruct (group_step_listed acc (upper m) "" path "" []) as [l [Hl _]].
    rewrite Hl. apply IH.
Qed.

Lemma group_paths_outcome (paths : dict pyval) :
  forall acc,
    match APIAgent.group_paths paths acc with
    | Ok _ =>
        forallb (fun kv => match snd kv with
                           | PDict methods => valid_operations methods
                           | _ => false
                           end) paths = true
    | Raise e =>
        forallb (fun kv => match snd kv with
                           | PDict methods => valid_operations methods
                           | _ => false
                           end) paths = false
        /\ exn_kind e = AttributeError
    end.
Proof.
  induction paths as [| [path v] rest IH]; intros acc; simpl.
  - reflexivity.
  - destruct v as [| | | | | methods]; simpl; try (split; reflexivity).
    pose proof (group_methods_outcome path methods acc) as Hm.
    destruct (APIAgent.group_methods path methods acc) as [acc1 | e]; simpl.
    + rewrite Hm. simpl. apply IH.
    + destruct Hm as [Hm He]. rewrite Hm. simpl. auto.
Qed.

(** X19. On a document that is a mapping, the agent's catalogue and the
    client's index fail on the same documents, and with the same class of
    exception: both return when [paths] is absent or well shaped, both
    raise an [AttributeError] otherwise. *)
Theorem agent_and_client_fail_alike (document : dict pyval) :
  match APIAgent.get_available_endpoints (PDict document),
        _parse_endpoints (PDict document) with
  | Ok _, Ok _ => index_shape document = true
  | Raise e1, Raise e2 =>
      index_shape document = false
      /\ exn_kind e1 = AttributeError /\ exn_kind e2 = AttributeError
  | _, _ => False
  end.
Proof.
  unfold APIAgent.get_available_endpoints, _parse_endpoints, index_shape.
  simpl. unfold dict_mem.
  destruct (dict_get "paths" document) as [v |]; simpl; [| reflexivity].
  destruct v as [| | | | | paths]; simpl; try (repeat split; reflexivity).
  pose proof (group_paths_outcome paths []) as Ha.
  pose proof (parse_paths_outcome paths []) as Hc.
  destruct (APIAgent.group_paths paths []) as [groups | e1];
    destruct (parse_paths paths []) as [index | e2].
  - exact Ha.
  - destruct Hc as [Hc _]. congruence.
  - destruct Ha as [Ha _]. congruence.
  - destruct Ha as [Ha H1]. destruct Hc as [_ H2]. auto.
Qed.

(** X20. A document that is no mapping never gives an index with an entry:
    [_parse_endpoints] returns the empty index for a list of which [paths]
    is no member and for a string in which [paths] does not occur, and
    raises a [TypeError] on every other value that is no mapping. *)
Theorem parse_endpoints_of_a_non_mapping (spec : pyval) :
  is_dict spec = false ->
  (without_paths spec -> _parse_endpoints spec = Ok [])
  /\ (~ without_paths spec ->
      exists e, _parse_endpoints spec = Raise e /\ exn_kind e = TypeError).
Proof.
  unfold _parse_endpoints, without_paths.
  destruct spec as [| b | z | s | l | d]; simpl; try discriminate; intros _.
  - split; [intros [[l [H _]] | [s [H _]]]; discriminate |].
    intros _. eexists. split; reflexivity.
  - split; [intros [[l [H _]] | [s [H _]]]; discriminate |].
    intros _. eexists. split; reflexivity.
  - split; [intros [[l [H _]] | [s [H _]]]; discriminate |].
    intros _. eexists. split; reflexivity.
  - destruct (is_substring "paths" s) eqn:E; simpl.
    + split.
      * intros [[l [H _]] | [s' [[= <-] H]]]; [discriminate |].
        apply is_substring_occurs in E. destruct E as [a [b E]].
        exfalso. exact (H a b E).
      * intros _. eexists. split; reflexivity.
    + split; [reflexivity |].
      intros H. exfalso. apply H. right. exists s. split; [reflexivity |].
      intros a b Hs.
      assert (is_substring "paths" s = true) as E'
        by (apply is_substring_occurs; now exists a, b).
      congruence.
  - destruct (existsb _ l) eqn:E; simpl.
    + split.
      * intros [[l' [[= <-] H]] | [s [H _]]]; [| discriminate].
        apply existsb_exists in E. destruct E as [x [Hx Hs]].
        destruct x; try discriminate. apply String.eqb_eq in Hs. subst.
        contradiction.
      * intros _. eexists. split; reflexivity.
    + split; [reflexivity |].
      intros H. exfalso. apply H. left. exists l. split; [reflexivity |].
      intros Hin.
      assert (existsb (fun x => match x with
                                | PStr s => String.eqb s "paths"
                                | _ => false
                                end) l = true) as E'.
      { apply existsb_exists. exists (PStr "paths"). split; [exact Hin | reflexivity]. }
      congruence.
Qed.

(** A list without [paths] gives the empty index; a list with it, a string
    that holds it and a number raise. *)
Lemma parse_endpoints_of_a_non_mapping_witness :
  _parse_endpoints (PList [PStr "openapi"; PInt 3]) = Ok []
  /\ (exists e, _parse_endpoints (PList [PStr "openapi"; PStr "paths"]) = Raise e
                /\ exn_kind e = TypeError)
  /\ (exists e, _parse_endpoints (PStr "no paths here") = Raise e
                /\ exn_kind e = TypeError)
  /\ (exists e, _parse_endpoints (PInt 3) = Raise e /\ exn_kind e = TypeError).
Proof.
  split; [| split; [| split]].
  - apply (parse_endpoints_of_a_non_mapping (PList [PStr "openapi"; PInt 3]));
      [reflexivity |].
    left. exists [PStr "openapi"; PInt 3]. split; [reflexivity |].
    intros [H | [H | []]]; discriminate.
  - apply (parse_endpoints_of_a_non_mapping (PList [PStr "openapi"; PStr "paths"]));
      [reflexivity |].
    intros [[l [[= <-] H]] | [s [H _]]]; [| discriminate].
    apply H. right. now left.
  - apply (parse_endpoints_of_a_non_mapping (PStr "no paths here")); [reflexivity |].
    intros [[l [H _]] | [s [[= <-] H]]]; [discriminate |].
    apply (H "no " " here"). reflexivity.
  - apply (parse_endpoints_of_a_non_mapping (PInt 3)); [reflexivity |].
    intros [[l [H _]] | [s [H _]]]; discriminate.
Defined.





